(** * Capture Checker: the watchdog of [capture-checker.cpp]

    A shallow embedding of the filter's instance data, of the watchdog
    thread ([thread_loop]), of the lifecycle functions ([start_thread],
    [end_thread]) and of the producer callbacks ([filter_video],
    [filter_audio]).

    Conventions.
    - [uint64_t] and [uint16_t] values are integers of [Z]; every
      arithmetic operation of the source is written with its wrap-around.
    - A pointer to a frame or to an audio packet is an [option]: [None] is
      [nullptr], [Some x] points to the struct [x].  The program never
      writes through these pointers.
    - One iteration of the watchdog loop reads the instance once: the
      instance it is given is the snapshot that iteration sees.
    - Calls into the host ([obs_source_enabled], [obs_source_active],
      [obs_filter_get_parent]) are answered by a [host] record.
    - The threads are interleaved at the grain of whole callbacks and whole
      loop iterations, and every read sees the last write.  In particular
      nothing else runs between the clearing of [thread_active] in
      [end_thread] and the return of its [join]. *)

From Stdlib Require Import ZArith List Bool Lia.
From stdpp Require Import base option list gmap.
Import ListNotations.

Local Open Scope Z_scope.

(** ** Machine integers *)

Module U64.
Definition modulus : Z := 2 ^ 64.
Definition wrap (z : Z) : Z := z mod modulus.
Definition sub (a b : Z) : Z := wrap (a - b).
Definition mul (a b : Z) : Z := wrap (a * b).
Definition in_range (z : Z) : Prop := 0 <= z < modulus.
End U64.

Module U16.
Definition modulus : Z := 2 ^ 16.
Definition wrap (z : Z) : Z := z mod modulus.
Definition in_range (z : Z) : Prop := 0 <= z < modulus.
End U16.

(** ** Data *)

(** [struct obs_source_frame] and [struct obs_audio_data]: the timestamp
    the filter reads and the payload it never looks at. *)
Record obs_source_frame := {
  timestamp : Z;
  frame_data : list Z
}.

Record obs_audio_data := {
  audio_timestamp : Z;
  audio_data : list Z
}.

(** An [obs_source_t *] is the identity of a source of the host. *)
Definition obs_source_t := nat.

(** The identity of a running [std::thread]. *)
Definition tid := nat.

(** [struct capture_checker_data].  [thread] is the [std::thread] member:
    [Some t] when it is joinable and stands for task [t].  The members
    [settings] and [signal_handler], which the functions below never read,
    are left out. *)
Record capture_checker_data := {
  context : obs_source_t;
  source : option obs_source_t;
  current_frame : option obs_source_frame;
  current_audio : option obs_audio_data;
  video_ts_check : bool;
  audio_ts_check : bool;
  source_enabled_check : bool;
  source_enabled_time : Z;
  thread : option tid;
  thread_active : bool
}.

Definition set_source (v : option obs_source_t) (f : capture_checker_data) :=
  {| context := context f; source := v;
     current_frame := current_frame f; current_audio := current_audio f;
     video_ts_check := video_ts_check f; audio_ts_check := audio_ts_check f;
     source_enabled_check := source_enabled_check f;
     source_enabled_time := source_enabled_time f;
     thread := thread f; thread_active := thread_active f |}.

Definition set_current_frame (v : option obs_source_frame) (f : capture_checker_data) :=
  {| context := context f; source := source f;
     current_frame := v; current_audio := current_audio f;
     video_ts_check := video_ts_check f; audio_ts_check := audio_ts_check f;
     source_enabled_check := source_enabled_check f;
     source_enabled_time := source_enabled_time f;
     thread := thread f; thread_active := thread_active f |}.

Definition set_current_audio (v : option obs_audio_data) (f : capture_checker_data) :=
  {| context := context f; source := source f;
     current_frame := current_frame f; current_audio := v;
     video_ts_check := video_ts_check f; audio_ts_check := audio_ts_check f;
     source_enabled_check := source_enabled_check f;
     source_enabled_time := source_enabled_time f;
     thread := thread f; thread_active := thread_active f |}.

Definition set_video_ts_check (v : bool) (f : capture_checker_data) :=
  {| context := context f; source := source f;
     current_frame := current_frame f; current_audio := current_audio f;
     video_ts_check := v; audio_ts_check := audio_ts_check f;
     source_enabled_check := source_enabled_check f;
     source_enabled_time := source_enabled_time f;
     thread := thread f; thread_active := thread_active f |}.

Definition set_audio_ts_check (v : bool) (f : capture_checker_data) :=
  {| context := context f; source := source f;
     current_frame := current_frame f; current_audio := current_audio f;
     video_ts_check := video_ts_check f; audio_ts_check := v;
     source_enabled_check := source_enabled_check f;
     source_enabled_time := source_enabled_time f;
     thread := thread f; thread_active := thread_active f |}.

Definition set_source_enabled_check (v : bool) (f : capture_checker_data) :=
  {| context := context f; source := source f;
     current_frame := current_frame f; current_audio := current_audio f;
     video_ts_check := video_ts_check f; audio_ts_check := audio_ts_check f;
     source_enabled_check := v;
     source_enabled_time := source_enabled_time f;
     thread := thread f; thread_active := thread_active f |}.

Definition set_source_enabled_time (v : Z) (f : capture_checker_data) :=
  {| context := context f; source := source f;
     current_frame := current_frame f; current_audio := current_audio f;
     video_ts_check := video_ts_check f; audio_ts_check := audio_ts_check f;
     source_enabled_check := source_enabled_check f;
     source_enabled_time := v;
     thread := thread f; thread_active := thread_active f |}.

Definition set_thread (v : option tid) (f : capture_checker_data) :=
  {| context := context f; source := source f;
     current_frame := current_frame f; current_audio := current_audio f;
     video_ts_check := video_ts_check f; audio_ts_check := audio_ts_check f;
     source_enabled_check := source_enabled_check f;
     source_enabled_time := source_enabled_time f;
     thread := v; thread_active := thread_active f |}.

Definition set_thread_active (v : bool) (f : capture_checker_data) :=
  {| context := context f; source := source f;
     current_frame := current_frame f; current_audio := current_audio f;
     video_ts_check := video_ts_check f; audio_ts_check := audio_ts_check f;
     source_enabled_check := source_enabled_check f;
     source_enabled_time := source_enabled_time f;
     thread := thread f; thread_active := v |}.

(** What the host answers when the filter calls into it. *)
Record host := {
  obs_source_enabled : obs_source_t -> bool;
  obs_source_active : option obs_source_t -> bool;
  obs_filter_get_parent : obs_source_t -> option obs_source_t
}.

(** ** Alerts

    The three places of [thread_loop] that log a message and call
    [play_alert_sound]: "Video timestamp check alert!", "Audio timestamp
    check alert!" and "Source enabled check alert!". *)
Inductive alert := StalledVideo | StalledAudio | HiddenTooLong.

Definition alert_eqb (a b : alert) : bool :=
  match a, b with
  | StalledVideo, StalledVideo
  | StalledAudio, StalledAudio
  | HiddenTooLong, HiddenTooLong => true
  | _, _ => false
  end.

Definition fires (k : alert) (out : list alert) : bool := existsb (alert_eqb k) out.

(** ** The effects of a loop iteration

    An iteration calls [play_alert_sound] some number of times and either
    completes or dereferences a null pointer.  [out] is the calls made, in
    order; a fault keeps the calls made before it. *)
Inductive outcome (A : Type) :=
| Done (a : A) (out : list alert)
| Fault (out : list alert).
Arguments Done {A} a out.
Arguments Fault {A} out.

Definition ret {A} (a : A) : outcome A := Done a [].

Definition bind {A B} (c : outcome A) (k : A -> outcome B) : outcome B :=
  match c with
  | Done a out =>
      match k a with
      | Done b out' => Done b (out ++ out')
      | Fault out' => Fault (out ++ out')
      end
  | Fault out => Fault out
  end.

Declare Scope outcome_scope.
Delimit Scope outcome_scope with outcome.
Notation "x <- c ;; k" := (bind c (fun x => k))
  (at level 90, c at next level, right associativity) : outcome_scope.
Notation "c ;;; k" := (bind c (fun _ => k))
  (at level 90, right associativity) : outcome_scope.

Definition play_alert_sound (k : alert) : outcome unit := Done tt [k].

(** [p->field] *)
Definition deref {A} (p : option A) : outcome A :=
  match p with
  | Some x => Done x []
  | None => Fault []
  end.

(** [if (b) c] *)
Definition when (b : bool) (c : outcome unit) : outcome unit :=
  if b then c else ret tt.

(** [a && c], which evaluates [c] only when [a] holds *)
Definition and_then (a : bool) (c : outcome bool) : outcome bool :=
  if a then c else ret false.

Definition alerts_of {A} (c : outcome A) : list alert :=
  match c with
  | Done _ out => out
  | Fault out => out
  end.

(** ** The watchdog: [thread_loop] *)

(** The variables of [thread_loop] that live across iterations. *)
Record locals := {
  frame_ts : Z;
  audio_ts : Z;
  prev_visible : bool;
  not_visible_since_ts : Z
}.

(** Their values before the first iteration (lines 212-216). *)
Definition thread_loop_entry : locals :=
  {| frame_ts := 0; audio_ts := 0; prev_visible := false; not_visible_since_ts := 0 |}.

Local Open Scope outcome_scope.

(** Lines 224-253: the body of an iteration once [current_frame] was found
    not null.  Every [filter->current_frame->timestamp] and
    [filter->current_audio->timestamp] is a dereference. *)
Definition loop_body (h : host) (f : capture_checker_data) (l : locals) : outcome locals :=
  v <- and_then (video_ts_check f)
         (fr <- deref (current_frame f) ;;
          ret (U64.sub (frame_ts l) (timestamp fr) =? 0)) ;;
  when v (play_alert_sound StalledVideo) ;;;
  a <- and_then (audio_ts_check f)
         (au <- deref (current_audio f) ;;
          ret (U64.sub (audio_ts l) (audio_timestamp au) =? 0)) ;;
  when a (play_alert_sound StalledAudio) ;;;
  let current_visible := obs_source_active h (source f) in
  nvs <- (if negb current_visible && prev_visible l
          then fr <- deref (current_frame f) ;; ret (timestamp fr)
          else ret (not_visible_since_ts l)) ;;
  s <- and_then (source_enabled_check f && negb current_visible)
         (fr <- deref (current_frame f) ;;
          ret (U64.mul 1000000000 (source_enabled_time f)
                 <? U64.sub (timestamp fr) nvs)) ;;
  when s (play_alert_sound HiddenTooLong) ;;;
  fr <- deref (current_frame f) ;;
  au <- deref (current_audio f) ;;
  ret {| frame_ts := timestamp fr;
         audio_ts := audio_timestamp au;
         prev_visible := current_visible;
         not_visible_since_ts := nvs |}.

(** One pass through [while (filter->thread_active) { ... }]: the loop is
    left, or the iteration sleeps at once on a null [current_frame], or the
    body runs. *)
Inductive iteration :=
| IterExit
| IterSkip
| IterRun (r : outcome locals).

Definition loop_iteration (h : host) (f : capture_checker_data) (l : locals) : iteration :=
  if negb (thread_active f) then IterExit
  else match current_frame f with
       | None => IterSkip
       | Some _ => IterRun (loop_body h f l)
       end.

(** How a run of the loop stands after the iterations it was given. *)
Inductive status :=
| Running (l : locals)
| Exited
| Crashed.

(** [thread_loop] run against the snapshots its successive iterations see.
    The result lists the alert calls of each iteration, one entry per
    iteration started. *)
Fixpoint thread_loop_from (l : locals) (obs : list (host * capture_checker_data))
  : list (list alert) * status :=
  match obs with
  | [] => ([], Running l)
  | (h, f) :: rest =>
      match loop_iteration h f l with
      | IterExit => ([], Exited)
      | IterSkip =>
          let r := thread_loop_from l rest in ([] :: fst r, snd r)
      | IterRun (Done l' out) =>
          let r := thread_loop_from l' rest in (out :: fst r, snd r)
      | IterRun (Fault out) => ([out], Crashed)
      end
  end.

Definition thread_loop := thread_loop_from thread_loop_entry.

Local Close Scope outcome_scope.

(** ** The instance together with its watchdog tasks

    [tasks] holds every task started by [std::thread(thread_loop, filter)]
    whose call of [thread_loop] has not returned yet, with the locals it has
    at the top of its next iteration.  [sink] records every call of
    [play_alert_sound] and the task that made it. *)
Record sys := {
  flt : capture_checker_data;
  tasks : gmap tid locals;
  next_tid : tid;
  sink : list (tid * alert)
}.

Definition with_flt (f : capture_checker_data) (s : sys) : sys :=
  {| flt := f; tasks := tasks s; next_tid := next_tid s; sink := sink s |}.

(** The ways a call can fail to return normally. *)
Inductive error :=
| Terminate      (* std::terminate: a joinable std::thread is assigned to *)
| SystemError    (* std::system_error: join on a thread that is not joinable *)
| NullDeref      (* a null pointer is dereferenced *)
| Hang.          (* join waits for a task that does not leave its loop *)

Inductive result (A : Type) :=
| Ok (a : A)
| Err (e : error).
Arguments Ok {A} a.
Arguments Err {A} e.

Definition rbind {A B} (c : result A) (k : A -> result B) : result B :=
  match c with
  | Ok a => k a
  | Err e => Err e
  end.

(** The settings [filter_update] reads with [obs_data_get_bool] and
    [obs_data_get_int]. *)
Record obs_data_t := {
  SETTING_VIDEO_TS_CHECK : bool;
  SETTING_AUDIO_TS_CHECK : bool;
  SETTING_SOURCE_ENABLED_CHECK : bool;
  SETTING_SOURCE_ENABLED_TIME : Z
}.

(** [filter_defaults] *)
Definition filter_defaults : obs_data_t :=
  {| SETTING_VIDEO_TS_CHECK := true;
     SETTING_AUDIO_TS_CHECK := true;
     SETTING_SOURCE_ENABLED_CHECK := true;
     SETTING_SOURCE_ENABLED_TIME := 5 |}.

(** [filter_update]: each field is assigned when the new value differs. *)
Definition filter_update (settings : obs_data_t) (f : capture_checker_data)
  : capture_checker_data :=
  let new_video_ts_check := SETTING_VIDEO_TS_CHECK settings in
  let new_audio_ts_check := SETTING_AUDIO_TS_CHECK settings in
  let new_source_enabled_check := SETTING_SOURCE_ENABLED_CHECK settings in
  let new_source_enabled_time := U16.wrap (SETTING_SOURCE_ENABLED_TIME settings) in
  let f :=
    if negb (Bool.eqb new_video_ts_check (video_ts_check f))
    then set_video_ts_check new_video_ts_check f else f in
  let f :=
    if negb (Bool.eqb new_audio_ts_check (audio_ts_check f))
    then set_audio_ts_check new_audio_ts_check f else f in
  let f :=
    if negb (Bool.eqb new_source_enabled_check (source_enabled_check f))
    then set_source_enabled_check new_source_enabled_check f else f in
  if negb (new_source_enabled_time =? source_enabled_time f)
  then set_source_enabled_time new_source_enabled_time f else f.

(** The instance as [bzalloc] returns it: every member zero. *)
Definition bzalloc : capture_checker_data :=
  {| context := 0%nat; source := None;
     current_frame := None; current_audio := None;
     video_ts_check := false; audio_ts_check := false;
     source_enabled_check := false; source_enabled_time := 0;
     thread := None; thread_active := false |}.

(** [filter_create] *)
Definition filter_create (settings : obs_data_t) (ctx : obs_source_t) : sys :=
  let filter := bzalloc in
  let filter :=
    {| context := ctx; source := source filter;
       current_frame := current_frame filter; current_audio := current_audio filter;
       video_ts_check := video_ts_check filter; audio_ts_check := audio_ts_check filter;
       source_enabled_check := source_enabled_check filter;
       source_enabled_time := source_enabled_time filter;
       thread := thread filter; thread_active := thread_active filter |} in
  let filter := filter_update settings filter in
  let filter := set_source None filter in
  let filter := set_current_frame None filter in
  {| flt := filter; tasks := ∅; next_tid := 0%nat; sink := [] |}.

(** [start_thread].  The new task begins at the entry of [thread_loop];
    assigning it to [filter->thread] terminates the process when that
    member is still joinable. *)
Definition start_thread (h : host) (s : sys) : result sys :=
  let filter := flt s in
  if thread_active filter || negb (obs_source_enabled h (context filter))
  then Ok s
  else
    let filter := set_thread_active true filter in
    let t := next_tid s in
    match thread filter with
    | Some _ => Err Terminate
    | None =>
        Ok {| flt := set_thread (Some t) filter;
              tasks := <[t := thread_loop_entry]> (tasks s);
              next_tid := S t;
              sink := sink s |}
    end.

(** [filter->thread.join()]: returns once the task's call of [thread_loop]
    has returned, and leaves [filter->thread] not joinable.  The task is at
    the top of an iteration and sees the instance as the caller left it: it
    leaves the loop there, or it goes on against an instance that nothing
    changes any more and the caller waits for ever ([Hang]). *)
Definition join (h : host) (s : sys) : result sys :=
  match thread (flt s) with
  | None => Err SystemError
  | Some t =>
      match tasks s !! t with
      | None => Ok (with_flt (set_thread None (flt s)) s)
      | Some l =>
          match loop_iteration h (flt s) l with
          | IterExit =>
              Ok {| flt := set_thread None (flt s);
                    tasks := delete t (tasks s);
                    next_tid := next_tid s;
                    sink := sink s |}
          | _ => Err Hang
          end
      end
  end.

(** [end_thread] *)
Definition end_thread (h : host) (s : sys) : result sys :=
  let filter := flt s in
  if negb (thread_active filter) then Ok s
  else
    let s := with_flt (set_thread_active false filter) s in
    rbind (join h s) (fun s =>
    Ok (with_flt (set_current_frame None (flt s)) s)).

(** [filter_enabled]: the handler of the "enable" signal. *)
Definition filter_enabled (h : host) (enabled : bool) (s : sys) : result sys :=
  if enabled then start_thread h s else end_thread h s.

(** [filter_destroy]: the instance as it is when [bfree] releases it. *)
Definition filter_destroy (h : host) (s : sys) : result sys :=
  end_thread h s.

(** [filter_video], lines 262-266: the parent is looked up once, and the
    watchdog is started when it is not running and the filter is enabled
    and its source active. *)
Definition filter_video_start (h : host) (s : sys) : result sys :=
  let filter := flt s in
  let filter :=
    match source filter with
    | None => set_source (obs_filter_get_parent h (context filter)) filter
    | Some _ => filter
    end in
  let s := with_flt filter s in
  if negb (thread_active filter)
     && obs_source_enabled h (context filter)
     && obs_source_active h (source filter)
  then start_thread h s
  else Ok s.

(** [filter_video], lines 268-269: whether [current_frame] is assigned. *)
Definition filter_video_stores (frame : option obs_source_frame)
    (f : capture_checker_data) : result bool :=
  match current_frame f with
  | None => Ok true
  | Some cur =>
      match frame with
      | None => Err NullDeref
      | Some fr => Ok (negb (timestamp fr =? timestamp cur))
      end
  end.

(** [filter_video] *)
Definition filter_video (h : host) (frame : option obs_source_frame) (s : sys)
  : result (option obs_source_frame * sys) :=
  rbind (filter_video_start h s) (fun s =>
  rbind (filter_video_stores frame (flt s)) (fun stores =>
  let s := if stores then with_flt (set_current_frame frame (flt s)) s else s in
  Ok (frame, s))).

(** [filter_audio] *)
Definition filter_audio (audio : option obs_audio_data) (s : sys)
  : option obs_audio_data * sys :=
  (audio, with_flt (set_current_audio audio (flt s)) s).

(** One iteration of the loop by task [t]. *)
Definition watchdog_step (h : host) (t : tid) (s : sys) : result sys :=
  match tasks s !! t with
  | None => Ok s
  | Some l =>
      match loop_iteration h (flt s) l with
      | IterExit =>
          Ok {| flt := flt s; tasks := delete t (tasks s);
                next_tid := next_tid s; sink := sink s |}
      | IterSkip => Ok s
      | IterRun (Done l' out) =>
          Ok {| flt := flt s; tasks := <[t := l']> (tasks s);
                next_tid := next_tid s;
                sink := sink s ++ map (pair t) out |}
      | IterRun (Fault _) => Err NullDeref
      end
  end.

(** What happens to an instance: the host calls one of its callbacks, or
    one of its watchdog tasks runs an iteration. *)
Inductive event :=
| Update (settings : obs_data_t)
| Enabled (enabled : bool)
| Video (frame : option obs_source_frame)
| Audio (audio : option obs_audio_data)
| Watchdog (t : tid).

Definition step (h : host) (e : event) (s : sys) : result sys :=
  match e with
  | Update settings => Ok (with_flt (filter_update settings (flt s)) s)
  | Enabled enabled => filter_enabled h enabled s
  | Video frame => rbind (filter_video h frame s) (fun r => Ok (snd r))
  | Audio audio => Ok (snd (filter_audio audio s))
  | Watchdog t => watchdog_step h t s
  end.

Fixpoint exec (evs : list (host * event)) (s : sys) : result sys :=
  match evs with
  | [] => Ok s
  | (h, e) :: rest => rbind (step h e s) (exec rest)
  end.

(** The alert calls made by the tasks started before [n]. *)
Definition alerts_before (n : tid) (out : list (tid * alert)) : list (tid * alert) :=
  List.filter (fun p => Nat.ltb (fst p) n) out.

(** ** The three checks in closed form *)

(** Line 224 *)
Definition video_stalled (f : capture_checker_data) (l : locals)
    (fr : obs_source_frame) : bool :=
  video_ts_check f && (U64.sub (frame_ts l) (timestamp fr) =? 0).

(** Line 231 *)
Definition audio_stalled (f : capture_checker_data) (l : locals)
    (au : obs_audio_data) : bool :=
  audio_ts_check f && (U64.sub (audio_ts l) (audio_timestamp au) =? 0).

(** Line 238: the source was visible at the previous iteration and is not
    visible now. *)
Definition became_hidden (h : host) (f : capture_checker_data) (l : locals) : bool :=
  negb (obs_source_active h (source f)) && prev_visible l.

(** Lines 238-239: [not_visible_since_ts] after the assignment. *)
Definition hidden_since (h : host) (f : capture_checker_data) (l : locals)
    (fr : obs_source_frame) : Z :=
  if became_hidden h f l then timestamp fr else not_visible_since_ts l.

(** Lines 241-243 *)
Definition hidden_too_long (h : host) (f : capture_checker_data) (l : locals)
    (fr : obs_source_frame) : bool :=
  source_enabled_check f && negb (obs_source_active h (source f))
  && (U64.mul 1000000000 (source_enabled_time f)
        <? U64.sub (timestamp fr) (hidden_since h f l fr)).

(** The call a check makes: one when it fires, none otherwise. *)
Definition call (b : bool) (k : alert) : list alert := if b then [k] else [].

Definition count_true (bs : list bool) : nat := length (List.filter id bs).

(** The index of the first element that satisfies [p]. *)
Fixpoint first_index {A} (p : A -> bool) (xs : list A) : option nat :=
  match xs with
  | [] => None
  | x :: rest => if p x then Some 0%nat else option_map S (first_index p rest)
  end.

(** ** Sample data for the worked instances *)

Definition obs_host (enabled active : bool) : host :=
  {| obs_source_enabled := fun _ => enabled;
     obs_source_active := fun _ => active;
     obs_filter_get_parent := fun _ => Some 1%nat |}.

Definition frame_at (t : Z) : obs_source_frame :=
  {| timestamp := t; frame_data := [] |}.

Definition audio_at (t : Z) : obs_audio_data :=
  {| audio_timestamp := t; audio_data := [] |}.

(** A running instance with the three checks on, a threshold of [secs]
    seconds and a frame and an audio packet recorded. *)
Definition watched (secs tv ta : Z) : capture_checker_data :=
  {| context := 0%nat; source := Some 1%nat;
     current_frame := Some (frame_at tv); current_audio := Some (audio_at ta);
     video_ts_check := true; audio_ts_check := true;
     source_enabled_check := true; source_enabled_time := secs;
     thread := Some 0%nat; thread_active := true |}.

(** ** Conditions on the snapshots of a run *)

(** The number of calls of kind [k] among [out]. *)
Definition calls (k : alert) (out : list alert) : nat :=
  length (List.filter (alert_eqb k) out).

(** The loop runs with the video check on, finds the video timestamp [T]
    and an audio packet. *)
Definition stalled_snapshot (T : Z) (o : host * capture_checker_data) : bool :=
  let f := snd o in
  thread_active f && video_ts_check f
  && match current_frame f with
     | Some fr => timestamp fr =? T
     | None => false
     end
  && match current_audio f with
     | Some _ => true
     | None => false
     end.

Definition video_check_off (o : host * capture_checker_data) : bool :=
  negb (video_ts_check (snd o)).

Definition not_visible (o : host * capture_checker_data) : bool :=
  negb (obs_source_active (fst o) (source (snd o))).

(** The loop runs with the source-enabled check on and a threshold of [S]
    seconds, the source is not visible, and the tick is evaluated on a
    video timestamp that is not before [t0]. *)
Definition stays_hidden (t0 S : Z) (o : host * capture_checker_data) : bool :=
  let f := snd o in
  thread_active f
  && negb (obs_source_active (fst o) (source f))
  && source_enabled_check f
  && (source_enabled_time f =? S)
  && match current_frame f with
     | Some fr => (t0 <=? timestamp fr) && (timestamp fr <? U64.modulus)
     | None => false
     end
  && match current_audio f with
     | Some _ => true
     | None => false
     end.

(** The video timestamp of the snapshot is more than [S] seconds after
    [t0]. *)
Definition past_deadline (t0 S : Z) (o : host * capture_checker_data) : bool :=
  match current_frame (snd o) with
  | Some fr => t0 + S * 1000000000 <? timestamp fr
  | None => false
  end.

(** The video timestamp of the snapshot is at least [S] seconds after
    [t0]: the condition as the specification words it in its testable
    property 3. *)
Definition reached_deadline (t0 S : Z) (o : host * capture_checker_data) : bool :=
  match current_frame (snd o) with
  | Some fr => t0 + S * 1000000000 <=? timestamp fr
  | None => false
  end.

(** A source seen visible, then hidden at video timestamp 1000 with a
    threshold of 5 seconds, then a tick exactly 5 seconds later. *)
Definition hidden_demo_before : locals :=
  {| frame_ts := 900; audio_ts := 900;
     prev_visible := true; not_visible_since_ts := 0 |}.

Definition hidden_demo_after : locals :=
  {| frame_ts := 1000; audio_ts := 1001;
     prev_visible := false; not_visible_since_ts := 1000 |}.

Definition hidden_demo_on_time : list (host * capture_checker_data) :=
  [(obs_host true false, watched 5 5000001000 5000001001)].

Definition hidden_demo_late : list (host * capture_checker_data) :=
  [(obs_host true false, watched 5 3000001000 3000001001);
   (obs_host true false, watched 5 5000001000 5000001001);
   (obs_host true false, watched 5 5000001001 5000001002);
   (obs_host true false, watched 5 6000001000 6000001001)].

(** ** The lifecycle invariant

    While [thread_active] is set, [filter->thread] is joinable and stands
    for the only task; while it is clear there is no task and
    [filter->thread] is not joinable. *)
Definition lifecycle_inv (s : sys) : Prop :=
  if thread_active (flt s)
  then exists t l,
         thread (flt s) = Some t /\ tasks s = {[t := l]} /\ (t < next_tid s)%nat
  else thread (flt s) = None /\ tasks s = ∅.

(** Every task is one started at or after [n]. *)
Definition tasks_from (n : tid) (s : sys) : Prop :=
  (n <= next_tid s)%nat
  /\ forall t l, tasks s !! t = Some l -> (n <= t)%nat.

(** The members of the instance that hold configuration. *)
Definition same_config (f g : capture_checker_data) : Prop :=
  context g = context f
  /\ video_ts_check g = video_ts_check f
  /\ audio_ts_check g = audio_ts_check f
  /\ source_enabled_check g = source_enabled_check f
  /\ source_enabled_time g = source_enabled_time f.

(** A session: the filter is enabled, receives a frame and an audio packet,
    its watchdog runs two iterations, and the filter is disabled. *)
Definition demo_session : list (host * event) :=
  [(obs_host true true, Enabled true);
   (obs_host true true, Video (Some (frame_at 10)));
   (obs_host true true, Audio (Some (audio_at 11)));
   (obs_host true true, Watchdog 0%nat);
   (obs_host true true, Watchdog 0%nat);
   (obs_host false true, Enabled false)].

Definition demo_running : list (host * event) :=
  [(obs_host true true, Enabled true);
   (obs_host true true, Video (Some (frame_at 10)));
   (obs_host true true, Audio (Some (audio_at 11)));
   (obs_host true true, Watchdog 0%nat);
   (obs_host true true, Watchdog 0%nat)].

(** The locals of a task that cached the timestamps [tv] and [ta], saw the
    visibility [vis] and holds [since] in [not_visible_since_ts]. *)
Definition at_top (tv ta : Z) (vis : bool) (since : Z) : locals :=
  {| frame_ts := tv; audio_ts := ta;
     prev_visible := vis; not_visible_since_ts := since |}.

(** The instance and its one task after [demo_running]. *)
Definition demo_state : sys :=
  {| flt := watched 5 10 11;
     tasks := {[0%nat := at_top 10 11 true 0]};
     next_tid := 1%nat;
     sink := [(0%nat, StalledVideo); (0%nat, StalledAudio)] |}.

(** ** The settings the properties view offers

    [filter_properties] offers [SETTING_SOURCE_ENABLED_TIME] as an integer
    slider from 1 to 60 * 60 in steps of 1 (line 202). *)
Definition slider_min : Z := 1.
Definition slider_max : Z := 60 * 60.

Definition on_slider (secs : Z) : bool :=
  (slider_min <=? secs) && (secs <=? slider_max).

(** ** Conditions on events and snapshots *)

(** The host hands a frame or a packet, never a null pointer. *)
Definition passes_sample (o : host * event) : bool :=
  match snd o with
  | Video None | Audio None => false
  | _ => true
  end.

(** An event that is a call of one of the filter's callbacks, as opposed
    to an iteration of a watchdog task. *)
Definition is_callback (o : host * event) : bool :=
  match snd o with
  | Watchdog _ => false
  | _ => true
  end.

Definition audio_check_off (o : host * capture_checker_data) : bool :=
  negb (audio_ts_check (snd o)).

(** The source is visible, or the source-enabled check is off. *)
Definition visible_or_unchecked (o : host * capture_checker_data) : bool :=
  obs_source_active (fst o) (source (snd o))
  || negb (source_enabled_check (snd o)).

Definition is_some {A} (p : option A) : bool :=
  match p with
  | Some _ => true
  | None => false
  end.

(** The alert calls of kind [k] recorded in the sink. *)
Definition sink_has (k : alert) (out : list (tid * alert)) : bool :=
  existsb (fun p => alert_eqb k (snd p)) out.

(** An instance that was stopped and is enabled again. *)
Definition restart (h : host) (s : sys) : result sys :=
  rbind (end_thread h s) (start_thread h).

(** What the source asks before it calls the alert of kind [k]: the flag
    of the check, and for the source-enabled check that the source is not
    visible. *)
Definition check_enabled (k : alert) (h : host) (f : capture_checker_data) : bool :=
  match k with
  | StalledVideo => video_ts_check f
  | StalledAudio => audio_ts_check f
  | HiddenTooLong => source_enabled_check f && negb (obs_source_active h (source f))
  end.

(** The alert calls made by task [t]. *)
Definition alerts_by (t : tid) (out : list (tid * alert)) : list (tid * alert) :=
  List.filter (fun p => Nat.eqb (fst p) t) out.

(** The snapshots that the iterations of task [t] see along a sequence of
    events: the instance at each of its iterations, and the instance with
    the flag cleared when [end_thread] joins it. *)
Fixpoint observed (t : tid) (evs : list (host * event)) (s : sys)
  : list (host * capture_checker_data) :=
  match evs with
  | [] => []
  | (h, e) :: rest =>
      let here :=
        match e with
        | Watchdog t' => if Nat.eqb t' t then [(h, flt s)] else []
        | Enabled false =>
            match thread (flt s) with
            | Some t' =>
                if thread_active (flt s) && Nat.eqb t' t
                then [(h, set_thread_active false (flt s))] else []
            | None => []
            end
        | _ => []
        end in
      match step h e s with
      | Ok s1 => here ++ observed t rest s1
      | Err _ => here
      end
  end.

(** The source [filter_video] asks the host about at line 265: the one
    held, or the parent it has just looked up. *)
Definition source_after_lookup (h : host) (f : capture_checker_data)
  : option obs_source_t :=
  match source f with
  | Some p => Some p
  | None => obs_filter_get_parent h (context f)
  end.

(** * Properties *)

(** ** Wrap-around arithmetic on values in range *)

Lemma u64_sub_zero (a b : Z) :
  U64.in_range a -> U64.in_range b -> (U64.sub a b =? 0) = (a =? b).
Proof.
  unfold U64.in_range, U64.sub, U64.wrap, U64.modulus. intros Ha Hb.
  destruct (Z.eqb_spec a b) as [->|Hne].
  - rewrite Z.sub_diag. reflexivity.
  - apply Z.eqb_neq. intros H0.
    destruct (Z_lt_le_dec a b) as [Hlt|Hge].
    + assert (E : (a - b) mod 2 ^ 64 = a - b + 2 ^ 64).
      { symmetry. apply Z.mod_unique with (q := -1); lia. }
      lia.
    + rewrite Z.mod_small in H0 by lia. lia.
Qed.

Lemma u64_sub_le (a b : Z) :
  0 <= b <= a -> a < U64.modulus -> U64.sub a b = a - b.
Proof.
  unfold U64.sub, U64.wrap. intros Hb Ha. apply Z.mod_small. lia.
Qed.

Lemma u64_mul_seconds (s : Z) :
  U16.in_range s -> U64.mul 1000000000 s = 1000000000 * s.
Proof.
  unfold U16.in_range, U16.modulus, U64.mul, U64.wrap, U64.modulus.
  intros Hs. apply Z.mod_small. lia.
Qed.

(** ** The body of an iteration *)

Ltac split_ifs :=
  repeat match goal with
         | |- context [if ?b then _ else _] => destruct b
         end.

(** With a frame and an audio packet present the body completes: it makes
    the calls of the checks that fire, in the order of the source, and
    leaves the locals of lines 250-253. *)
Lemma loop_body_done h f l fr au :
  current_frame f = Some fr ->
  current_audio f = Some au ->
  loop_body h f l =
    Done {| frame_ts := timestamp fr;
            audio_ts := audio_timestamp au;
            prev_visible := obs_source_active h (source f);
            not_visible_since_ts := hidden_since h f l fr |}
         (call (video_stalled f l fr) StalledVideo
          ++ call (audio_stalled f l au) StalledAudio
          ++ call (hidden_too_long h f l fr) HiddenTooLong).
Proof.
  intros Hfr Hau.
  unfold loop_body, hidden_too_long, hidden_since, became_hidden,
    video_stalled, audio_stalled, call, and_then, when.
  rewrite Hfr, Hau.
  destruct (video_ts_check f), (audio_ts_check f), (source_enabled_check f),
    (obs_source_active h (source f)), (prev_visible l); cbn;
    split_ifs; reflexivity.
Qed.

(** With a frame present and no audio packet the body faults. *)
Lemma loop_body_no_audio h f l fr :
  current_frame f = Some fr ->
  current_audio f = None ->
  exists out, loop_body h f l = Fault out.
Proof.
  intros Hfr Hau.
  unfold loop_body, and_then, when.
  rewrite Hfr, Hau.
  destruct (video_ts_check f), (audio_ts_check f), (source_enabled_check f),
    (obs_source_active h (source f)), (prev_visible l); cbn;
    split_ifs; eexists; reflexivity.
Qed.

Lemma loop_iteration_run h f l fr :
  thread_active f = true ->
  current_frame f = Some fr ->
  loop_iteration h f l = IterRun (loop_body h f l).
Proof.
  intros Ha Hfr. unfold loop_iteration. rewrite Ha, Hfr. reflexivity.
Qed.

Lemma loop_iteration_done_inv h f l l' out :
  loop_iteration h f l = IterRun (Done l' out) ->
  exists fr au,
    thread_active f = true /\ current_frame f = Some fr /\ current_audio f = Some au.
Proof.
  unfold loop_iteration.
  destruct (thread_active f); [|discriminate].
  destruct (current_frame f) as [fr|] eqn:Hfr; [|discriminate].
  destruct (current_audio f) as [au|] eqn:Hau.
  - intros _. exists fr, au. auto.
  - cbn [negb]. intros H. injection H as H.
    destruct (loop_body_no_audio h f l fr Hfr Hau) as [o Ho]. congruence.
Qed.

Lemma fires_call k b k' : fires k (call b k') = b && alert_eqb k k'.
Proof. destruct b; cbn; [destruct (alert_eqb k k')|]; reflexivity. Qed.

Lemma fires_app k xs ys : fires k (xs ++ ys) = fires k xs || fires k ys.
Proof. unfold fires. apply existsb_app. Qed.

Lemma fires_body k (bv ba bh : bool) :
  fires k (call bv StalledVideo ++ call ba StalledAudio ++ call bh HiddenTooLong)
  = match k with
    | StalledVideo => bv
    | StalledAudio => ba
    | HiddenTooLong => bh
    end.
Proof. destruct k, bv, ba, bh; reflexivity. Qed.

(** The video check's call is made before anything can fault. *)
Lemma loop_body_video_alert h f l fr :
  current_frame f = Some fr ->
  fires StalledVideo (alerts_of (loop_body h f l)) = video_stalled f l fr.
Proof.
  intros Hfr.
  destruct (current_audio f) as [au|] eqn:Hau.
  - rewrite (loop_body_done h f l fr au Hfr Hau). cbn [alerts_of].
    apply fires_body.
  - unfold loop_body, video_stalled, and_then, when.
    rewrite Hfr, Hau.
    destruct (video_ts_check f), (audio_ts_check f), (source_enabled_check f),
      (obs_source_active h (source f)), (prev_visible l); cbn;
      split_ifs; reflexivity.
Qed.

(** ** C1 *)

(** C1 (the code departs from it).  A tick on which no frame has been
    recorded is skipped: nothing is evaluated and the loop goes on.  A tick
    on which a frame has been recorded and no audio packet has is not
    skipped: the body dereferences the null [current_audio] (line 231 when
    the audio check is on, line 253 in every case).  Such an instance is
    reached by creating the filter and delivering one video frame. *)
Theorem C1_absent_audio_faults :
  (forall h f l,
     loop_iteration h (set_thread_active true (set_current_frame None f)) l
     = IterSkip)
  /\ (forall h f l fr,
        exists out,
          loop_iteration h
            (set_thread_active true
               (set_current_audio None (set_current_frame (Some fr) f))) l
          = IterRun (Fault out))
  /\ exec [(obs_host true true, Video (Some (frame_at 1)));
           (obs_host true true, Watchdog 0%nat)]
          (filter_create filter_defaults 0%nat)
     = Err NullDeref.
Proof.
  split; [|split].
  - intros h f l. reflexivity.
  - intros h f l fr.
    set (g := set_thread_active true
                (set_current_audio None (set_current_frame (Some fr) f))).
    destruct (loop_body_no_audio h g l fr eq_refl eq_refl) as [out Hout].
    exists out. unfold loop_iteration. cbn [g thread_active current_frame
      set_thread_active set_current_audio set_current_frame negb].
    fold g. rewrite Hout. reflexivity.
  - vm_compute. reflexivity.
Qed.

(** ** C3 *)

(** C3.  Take two consecutive evaluated ticks, the video check being on at
    the second.  The first leaves its video timestamp in [frame_ts]; the
    second calls the alert for a stalled video exactly when its video
    timestamp equals that cached value, and leaves its own timestamp in
    [frame_ts] when it completes. *)
Theorem C3_video_stall_consecutive h1 f1 l0 l1 out1 fr1 h2 f2 fr2 :
  loop_iteration h1 f1 l0 = IterRun (Done l1 out1) ->
  current_frame f1 = Some fr1 ->
  thread_active f2 = true ->
  current_frame f2 = Some fr2 ->
  video_ts_check f2 = true ->
  U64.in_range (timestamp fr1) ->
  U64.in_range (timestamp fr2) ->
  frame_ts l1 = timestamp fr1
  /\ exists r2,
       loop_iteration h2 f2 l1 = IterRun r2
       /\ fires StalledVideo (alerts_of r2) = (timestamp fr2 =? timestamp fr1)
       /\ (forall l2 out2, r2 = Done l2 out2 -> frame_ts l2 = timestamp fr2).
Proof.
  intros H1 Hfr1 Ha2 Hfr2 Hv2 R1 R2.
  destruct (loop_iteration_done_inv _ _ _ _ _ H1) as (fr & au & Ha1 & Hfr & Hau).
  assert (fr = fr1) by congruence; subst fr.
  rewrite (loop_iteration_run h1 f1 l0 fr1 Ha1 Hfr1) in H1.
  rewrite (loop_body_done h1 f1 l0 fr1 au Hfr1 Hau) in H1.
  injection H1 as Hl1 _.
  assert (Hts : frame_ts l1 = timestamp fr1) by (subst l1; reflexivity).
  split; [exact Hts|].
  exists (loop_body h2 f2 l1). split; [|split].
  - apply (loop_iteration_run h2 f2 l1 fr2); assumption.
  - rewrite (loop_body_video_alert h2 f2 l1 fr2 Hfr2).
    unfold video_stalled. rewrite Hv2, Hts. cbn [andb].
    rewrite u64_sub_zero by assumption. apply Z.eqb_sym.
  - intros l2 out2 Hr2.
    destruct (current_audio f2) as [au2|] eqn:Hau2.
    + rewrite (loop_body_done h2 f2 l1 fr2 au2 Hfr2 Hau2) in Hr2.
      injection Hr2 as Hl2 _. subst l2. reflexivity.
    + destruct (loop_body_no_audio h2 f2 l1 fr2 Hfr2 Hau2) as [o Ho].
      congruence.
Qed.

Lemma C3_video_stall_consecutive_witness :
  loop_iteration (obs_host true true) (watched 5 7 3) thread_loop_entry
  = IterRun (Done (at_top 7 3 true 0) [])
  /\ video_ts_check (watched 5 7 8) = true
  /\ fires StalledVideo
       (alerts_of (loop_body (obs_host true true) (watched 5 7 8)
                     (at_top 7 3 true 0)))
     = true.
Proof.
  split; [reflexivity|]. split; [reflexivity|].
  destruct (C3_video_stall_consecutive
              (obs_host true true) (watched 5 7 3) thread_loop_entry
              (at_top 7 3 true 0) [] (frame_at 7)
              (obs_host true true) (watched 5 7 8) (frame_at 7))
    as (_ & r2 & Hr2 & Hf & _).
  - reflexivity.
  - reflexivity.
  - reflexivity.
  - reflexivity.
  - reflexivity.
  - unfold U64.in_range, U64.modulus; simpl; lia.
  - unfold U64.in_range, U64.modulus; simpl; lia.
  - injection Hr2 as Hr2. rewrite Hr2. exact Hf.
Defined.

(** ** C7 *)

(** C7.  An evaluated tick sets [not_visible_since_ts] to its video
    timestamp exactly when the source was visible at the previous evaluated
    tick and is not visible now; otherwise the value is kept.  The tick
    records the visibility it saw, so a further tick that finds the source
    still not visible keeps the value too. *)
Theorem C7_not_visible_since_edge h f l l' out :
  loop_iteration h f l = IterRun (Done l' out) ->
  exists fr,
    current_frame f = Some fr
    /\ prev_visible l' = obs_source_active h (source f)
    /\ not_visible_since_ts l'
       = (if prev_visible l && negb (obs_source_active h (source f))
          then timestamp fr else not_visible_since_ts l)
    /\ (forall h2 f2 l2 out2,
          obs_source_active h (source f) = false ->
          loop_iteration h2 f2 l' = IterRun (Done l2 out2) ->
          not_visible_since_ts l2 = not_visible_since_ts l').
Proof.
  intros H.
  destruct (loop_iteration_done_inv _ _ _ _ _ H) as (fr & au & Ha & Hfr & Hau).
  rewrite (loop_iteration_run h f l fr Ha Hfr) in H.
  rewrite (loop_body_done h f l fr au Hfr Hau) in H.
  injection H as Hl _.
  exists fr. split; [exact Hfr|].
  assert (Hp : prev_visible l' = obs_source_active h (source f))
    by (subst l'; reflexivity).
  split; [exact Hp|]. split.
  - subst l'. cbn [not_visible_since_ts]. unfold hidden_since, became_hidden.
    rewrite andb_comm. reflexivity.
  - intros h2 f2 l2 out2 Hhid H2.
    destruct (loop_iteration_done_inv _ _ _ _ _ H2)
      as (fr2 & au2 & Ha2 & Hfr2 & Hau2).
    rewrite (loop_iteration_run h2 f2 l' fr2 Ha2 Hfr2) in H2.
    rewrite (loop_body_done h2 f2 l' fr2 au2 Hfr2 Hau2) in H2.
    injection H2 as Hl2 _. rewrite <- Hl2. cbn [not_visible_since_ts].
    unfold hidden_since, became_hidden. rewrite Hp, Hhid, andb_false_r.
    reflexivity.
Qed.

Lemma C7_not_visible_since_edge_witness :
  loop_iteration (obs_host true false) (watched 5 40 41) (at_top 30 31 true 0)
  = IterRun (Done (at_top 40 41 false 40) [])
  /\ exists fr,
       current_frame (watched 5 40 41) = Some fr
       /\ not_visible_since_ts (at_top 40 41 false 40) = timestamp fr.
Proof.
  split; [reflexivity|].
  destruct (C7_not_visible_since_edge
              (obs_host true false) (watched 5 40 41)
              (at_top 30 31 true 0) (at_top 40 41 false 40) [] eq_refl)
    as (fr & Hfr & _ & Hn & _).
  exists fr. split; [exact Hfr | exact Hn].
Defined.

(** ** C4 *)

Lemma calls_body k (bv ba bh : bool) :
  calls k (call bv StalledVideo ++ call ba StalledAudio ++ call bh HiddenTooLong)
  = match k with
    | StalledVideo => Nat.b2n bv
    | StalledAudio => Nat.b2n ba
    | HiddenTooLong => Nat.b2n bh
    end.
Proof. destruct k, bv, ba, bh; reflexivity. Qed.

Lemma length_body (bv ba bh : bool) :
  length (call bv StalledVideo ++ call ba StalledAudio ++ call bh HiddenTooLong)
  = count_true [bv; ba; bh].
Proof. destruct bv, ba, bh; reflexivity. Qed.

(** A stall of the video timestamp that lasts over the snapshots [obs]:
    every one of these ticks is evaluated and calls the alert once for it. *)
Lemma stalled_run T :
  U64.in_range T ->
  forall obs l,
    frame_ts l = T ->
    forallb (stalled_snapshot T) obs = true ->
    map (calls StalledVideo) (fst (thread_loop_from l obs))
    = repeat 1%nat (length obs).
Proof.
  intros HT obs. induction obs as [|[h f] obs IH]; intros l Hl Hall.
  - reflexivity.
  - cbn [forallb] in Hall. apply andb_true_iff in Hall as [Ho Hall].
    unfold stalled_snapshot in Ho. cbn [snd] in Ho.
    destruct (current_frame f) as [fr|] eqn:Hfr;
      [|rewrite andb_false_r in Ho; discriminate].
    destruct (current_audio f) as [au|] eqn:Hau;
      [|rewrite andb_false_r in Ho; discriminate].
    rewrite andb_true_r in Ho.
    apply andb_true_iff in Ho as [Ho Hts].
    apply andb_true_iff in Ho as [Ha Hv].
    apply Z.eqb_eq in Hts.
    cbn [thread_loop_from].
    rewrite (loop_iteration_run h f l fr Ha Hfr).
    rewrite (loop_body_done h f l fr au Hfr Hau).
    cbn [fst map length repeat]. f_equal.
    + rewrite calls_body. unfold video_stalled.
      rewrite Hv, Hl, Hts, u64_sub_zero by assumption.
      rewrite Z.eqb_refl. reflexivity.
    + apply IH; [exact Hts | exact Hall].
Qed.

(** C4.  On an evaluated tick the alert calls are those of the checks whose
    condition holds, one call for each, in the order video, audio,
    visibility: two or three checks that fire together make two or three
    calls.  When a video stall lasts over [k] consecutive ticks, each of the
    [k] ticks makes its call for it. *)
Theorem C4_alert_per_firing_check :
  (forall h f l l' out,
     loop_iteration h f l = IterRun (Done l' out) ->
     exists fr au,
       current_frame f = Some fr /\ current_audio f = Some au
       /\ out = call (video_stalled f l fr) StalledVideo
                ++ call (audio_stalled f l au) StalledAudio
                ++ call (hidden_too_long h f l fr) HiddenTooLong
       /\ length out
          = count_true [video_stalled f l fr; audio_stalled f l au;
                        hidden_too_long h f l fr]
       /\ calls StalledVideo out = Nat.b2n (video_stalled f l fr)
       /\ calls StalledAudio out = Nat.b2n (audio_stalled f l au)
       /\ calls HiddenTooLong out = Nat.b2n (hidden_too_long h f l fr))
  /\ (forall T l obs,
        U64.in_range T ->
        frame_ts l = T ->
        forallb (stalled_snapshot T) obs = true ->
        map (calls StalledVideo) (fst (thread_loop_from l obs))
        = repeat 1%nat (length obs)).
Proof.
  split.
  - intros h f l l' out H.
    destruct (loop_iteration_done_inv _ _ _ _ _ H) as (fr & au & Ha & Hfr & Hau).
    rewrite (loop_iteration_run h f l fr Ha Hfr) in H.
    rewrite (loop_body_done h f l fr au Hfr Hau) in H.
    injection H as _ Hout.
    exists fr, au. repeat split; try assumption; subst out.
    + reflexivity.
    + apply length_body.
    + apply (calls_body StalledVideo).
    + apply (calls_body StalledAudio).
    + apply (calls_body HiddenTooLong).
  - intros T l obs HT Hl Hall. exact (stalled_run T HT obs l Hl Hall).
Qed.

Lemma C4_alert_per_firing_check_witness :
  (forallb (stalled_snapshot 2)
     [(obs_host true true, watched 5 2 10);
      (obs_host true true, watched 5 2 11);
      (obs_host true true, watched 5 2 11)] = true
   /\ map (calls StalledVideo)
        (fst (thread_loop_from (at_top 2 0 false 0)
                [(obs_host true true, watched 5 2 10);
                 (obs_host true true, watched 5 2 11);
                 (obs_host true true, watched 5 2 11)]))
      = [1%nat; 1%nat; 1%nat])
  /\ loop_iteration (obs_host true true) (watched 5 2 11) (at_top 2 11 true 0)
     = IterRun (Done (at_top 2 11 true 0) [StalledVideo; StalledAudio])
  /\ exists fr au,
       current_frame (watched 5 2 11) = Some fr
       /\ current_audio (watched 5 2 11) = Some au
       /\ length [StalledVideo; StalledAudio]
          = count_true
              [video_stalled (watched 5 2 11) (at_top 2 11 true 0) fr;
               audio_stalled (watched 5 2 11) (at_top 2 11 true 0) au;
               hidden_too_long (obs_host true true) (watched 5 2 11)
                 (at_top 2 11 true 0) fr].
Proof.
  destruct C4_alert_per_firing_check as [Htick Hrun].
  split; [split; [reflexivity|]|split; [reflexivity|]].
  - apply (Hrun 2).
    + unfold U64.in_range, U64.modulus; simpl; lia.
    + reflexivity.
    + reflexivity.
  - destruct (Htick (obs_host true true) (watched 5 2 11)
                (at_top 2 11 true 0) (at_top 2 11 true 0)
                [StalledVideo; StalledAudio] eq_refl)
      as (fr & au & Hfr & Hau & _ & Hlen & _).
    exists fr, au. repeat split; assumption.
Defined.

(** ** C8 *)

(** C8.  Over a run in which every iteration finds the video check off, no
    iteration calls the alert for a stalled video, whatever the video
    timestamps are. *)
Theorem C8_video_check_off_never_fires l obs :
  forallb video_check_off obs = true ->
  forallb (fun out => negb (fires StalledVideo out))
    (fst (thread_loop_from l obs)) = true.
Proof.
  revert l. induction obs as [|[h f] obs IH]; intros l Hall.
  - reflexivity.
  - cbn [forallb] in Hall. apply andb_true_iff in Hall as [Ho Hall].
    unfold video_check_off in Ho. cbn [snd] in Ho.
    apply negb_true_iff in Ho.
    cbn [thread_loop_from].
    destruct (loop_iteration h f l) as [| |r] eqn:Hit.
    + reflexivity.
    + cbn [fst forallb fires existsb negb andb]. apply IH, Hall.
    + assert (Hr : fires StalledVideo (alerts_of r) = false).
      { unfold loop_iteration in Hit.
        destruct (negb (thread_active f)); [discriminate|].
        destruct (current_frame f) as [fr|] eqn:Hfr; [|discriminate].
        injection Hit as <-.
        rewrite (loop_body_video_alert h f l fr Hfr).
        unfold video_stalled. rewrite Ho. reflexivity. }
      destruct r as [l' out|out]; cbn [alerts_of] in Hr;
        cbn [fst forallb]; rewrite Hr; cbn [negb andb].
      * apply IH, Hall.
      * reflexivity.
Qed.

Lemma C8_video_check_off_never_fires_witness :
  forallb video_check_off
    [(obs_host true true, set_video_ts_check false (watched 5 0 1));
     (obs_host true true, set_video_ts_check false (watched 5 0 2));
     (obs_host true true, set_video_ts_check false (watched 5 0 2))] = true
  /\ forallb (fun out => negb (fires StalledVideo out))
       (fst (thread_loop_from thread_loop_entry
               [(obs_host true true, set_video_ts_check false (watched 5 0 1));
                (obs_host true true, set_video_ts_check false (watched 5 0 2));
                (obs_host true true, set_video_ts_check false (watched 5 0 2))]))
     = true.
Proof.
  split; [reflexivity|].
  apply C8_video_check_off_never_fires. reflexivity.
Defined.

(** ** C9 *)

(** While the source is never seen visible the visibility locals keep the
    values they have. *)
Lemma never_visible_run obs :
  forall l trace l',
    forallb not_visible obs = true ->
    prev_visible l = false ->
    thread_loop_from l obs = (trace, Running l') ->
    prev_visible l' = false
    /\ not_visible_since_ts l' = not_visible_since_ts l.
Proof.
  induction obs as [|[h f] obs IH]; intros l trace l' Hall Hp Hrun.
  - cbn in Hrun. injection Hrun as _ <-. auto.
  - cbn [forallb] in Hall. apply andb_true_iff in Hall as [Ho Hall].
    unfold not_visible in Ho. cbn [fst snd] in Ho. apply negb_true_iff in Ho.
    cbn [thread_loop_from] in Hrun.
    destruct (loop_iteration h f l) as [| |[l1 out|out]] eqn:Hit.
    + discriminate.
    + destruct (thread_loop_from l obs) as [tr st] eqn:Hrest.
      cbn [fst snd] in Hrun. injection Hrun as _ ->.
      exact (IH l tr l' Hall Hp Hrest).
    + destruct (thread_loop_from l1 obs) as [tr st] eqn:Hrest.
      cbn [fst snd] in Hrun. injection Hrun as _ ->.
      destruct (loop_iteration_done_inv _ _ _ _ _ Hit)
        as (fr & au & Ha & Hfr & Hau).
      rewrite (loop_iteration_run h f l fr Ha Hfr) in Hit.
      rewrite (loop_body_done h f l fr au Hfr Hau) in Hit.
      injection Hit as Hl1 _.
      assert (Hp1 : prev_visible l1 = false) by (subst l1; exact Ho).
      assert (Hn1 : not_visible_since_ts l1 = not_visible_since_ts l).
      { subst l1. cbn [not_visible_since_ts].
        unfold hidden_since, became_hidden. rewrite Hp, andb_false_r.
        reflexivity. }
      destruct (IH l1 tr l' Hall Hp1 Hrest) as [H1 H2].
      split; [exact H1 | congruence].
    + discriminate.
Qed.

(** C9.  Let the source be not visible at every iteration since the task
    started.  Then [not_visible_since_ts] still has its initial value 0, and
    an evaluated tick that finds the check on and the source not visible
    calls the visibility alert exactly when its video timestamp exceeds the
    threshold of [source_enabled_time] seconds, counted from 0: no passage
    from visible to not visible is needed. *)
Theorem C9_never_visible_fires_on_timestamp obs trace l :
  forallb not_visible obs = true ->
  thread_loop obs = (trace, Running l) ->
  not_visible_since_ts l = 0
  /\ forall h f fr l' out,
       loop_iteration h f l = IterRun (Done l' out) ->
       current_frame f = Some fr ->
       source_enabled_check f = true ->
       obs_source_active h (source f) = false ->
       U64.in_range (timestamp fr) ->
       U16.in_range (source_enabled_time f) ->
       fires HiddenTooLong out
       = (1000000000 * source_enabled_time f <? timestamp fr).
Proof.
  intros Hall Hrun.
  destruct (never_visible_run obs thread_loop_entry trace l Hall eq_refl Hrun)
    as [Hp Hn].
  cbn in Hn. split; [exact Hn|].
  intros h f fr l' out Hit Hfr Hc Hact Rts Rs.
  destruct (loop_iteration_done_inv _ _ _ _ _ Hit) as (fr' & au & Ha & Hfr' & Hau).
  assert (fr' = fr) by congruence; subst fr'.
  rewrite (loop_iteration_run h f l fr Ha Hfr) in Hit.
  rewrite (loop_body_done h f l fr au Hfr Hau) in Hit.
  injection Hit as _ Hout. subst out.
  rewrite fires_body. unfold hidden_too_long, hidden_since, became_hidden.
  rewrite Hc, Hact, Hp, Hn. cbn [negb andb].
  rewrite u64_mul_seconds by assumption.
  rewrite u64_sub_le by (unfold U64.in_range in Rts; lia).
  rewrite Z.sub_0_r. reflexivity.
Qed.

Lemma C9_never_visible_fires_on_timestamp_witness :
  thread_loop [(obs_host true false, watched 5 10 11);
               (obs_host true false, watched 5 20 21)]
  = ([[]; []], Running (at_top 20 21 false 0))
  /\ loop_iteration (obs_host true false) (watched 5 5000000001 22)
       (at_top 20 21 false 0)
     = IterRun (Done (at_top 5000000001 22 false 0) [HiddenTooLong])
  /\ fires HiddenTooLong [HiddenTooLong] = (1000000000 * 5 <? 5000000001).
Proof.
  split; [reflexivity|]. split; [reflexivity|].
  destruct (C9_never_visible_fires_on_timestamp
              [(obs_host true false, watched 5 10 11);
               (obs_host true false, watched 5 20 21)]
              [[]; []] (at_top 20 21 false 0) eq_refl eq_refl) as [_ H].
  apply (H (obs_host true false) (watched 5 5000000001 22)
           (frame_at 5000000001) (at_top 5000000001 22 false 0)).
  - reflexivity.
  - reflexivity.
  - reflexivity.
  - reflexivity.
  - unfold U64.in_range, U64.modulus; simpl; lia.
  - unfold U16.in_range, U16.modulus; simpl; lia.
Defined.

(** ** C2 *)

Lemma first_index_map {A B} (p : B -> bool) (g : A -> B) (xs : list A) :
  first_index p (map g xs) = first_index (fun x => p (g x)) xs.
Proof.
  induction xs as [|x xs IH]; cbn; [reflexivity|].
  rewrite IH. reflexivity.
Qed.

(** After the source became hidden at video timestamp [t0], and while it
    stays hidden, each tick calls the visibility alert exactly when its
    video timestamp is more than [S] seconds after [t0]. *)
Lemma hidden_run t0 S :
  0 <= t0 ->
  U16.in_range S ->
  forall obs l,
    not_visible_since_ts l = t0 ->
    prev_visible l = false ->
    forallb (stays_hidden t0 S) obs = true ->
    map (fires HiddenTooLong) (fst (thread_loop_from l obs))
    = map (past_deadline t0 S) obs.
Proof.
  intros Ht0 HS obs. induction obs as [|[h f] obs IH]; intros l Hn Hp Hall.
  - reflexivity.
  - cbn [forallb] in Hall. apply andb_true_iff in Hall as [Ho Hall].
    unfold stays_hidden in Ho. cbn [fst snd] in Ho.
    destruct (current_frame f) as [fr|] eqn:Hfr;
      [|rewrite andb_false_r in Ho; discriminate].
    destruct (current_audio f) as [au|] eqn:Hau;
      [|rewrite andb_false_r in Ho; discriminate].
    rewrite andb_true_r in Ho.
    apply andb_true_iff in Ho as [Ho Hts].
    apply andb_true_iff in Hts as [Hlo Hhi].
    apply andb_true_iff in Ho as [Ho Htime].
    apply andb_true_iff in Ho as [Ho Hc].
    apply andb_true_iff in Ho as [Ha Hact].
    apply negb_true_iff in Hact.
    apply Z.leb_le in Hlo. apply Z.ltb_lt in Hhi. apply Z.eqb_eq in Htime.
    cbn [thread_loop_from].
    rewrite (loop_iteration_run h f l fr Ha Hfr).
    rewrite (loop_body_done h f l fr au Hfr Hau).
    cbn [fst map snd]. f_equal.
    + rewrite fires_body. unfold hidden_too_long, hidden_since, became_hidden.
      rewrite Hc, Hact, Hp, Hn, Htime. cbn [negb andb].
      rewrite u64_mul_seconds by assumption.
      rewrite u64_sub_le by lia.
      unfold past_deadline. cbn [snd]. rewrite Hfr.
      destruct (Z.ltb_spec (1000000000 * S) (timestamp fr - t0));
        destruct (Z.ltb_spec (t0 + S * 1000000000) (timestamp fr));
        try reflexivity; lia.
    + apply IH; [|exact Hact|exact Hall].
      cbn [not_visible_since_ts]. unfold hidden_since, became_hidden.
      rewrite Hp, andb_false_r. exact Hn.
Qed.

(** C2 (amended).  Let an evaluated tick see the source pass from visible
    to not visible at video timestamp [t0], and let the following ticks be
    evaluated with the check on, a threshold of [S] seconds, the source
    still not visible and video timestamps not before [t0].  The tick of
    the passage makes no visibility alert; each following tick calls it
    exactly when its video timestamp is more than [S] seconds after [t0].
    So the first call is at the first tick whose video timestamp exceeds
    [t0 + S * 10^9], and there is none before. *)
Theorem C2_hidden_too_long_first_fire h0 f0 l0 l1 out0 fr0 S obs :
  loop_iteration h0 f0 l0 = IterRun (Done l1 out0) ->
  current_frame f0 = Some fr0 ->
  prev_visible l0 = true ->
  obs_source_active h0 (source f0) = false ->
  0 <= timestamp fr0 ->
  U16.in_range S ->
  forallb (stays_hidden (timestamp fr0) S) obs = true ->
  fires HiddenTooLong out0 = false
  /\ map (fires HiddenTooLong) (fst (thread_loop_from l1 obs))
     = map (past_deadline (timestamp fr0) S) obs
  /\ first_index (fires HiddenTooLong) (fst (thread_loop_from l1 obs))
     = first_index (past_deadline (timestamp fr0) S) obs.
Proof.
  intros Hit Hfr0 Hp0 Hact0 Ht0 HS Hall.
  destruct (loop_iteration_done_inv _ _ _ _ _ Hit) as (fr & au & Ha & Hfr & Hau).
  assert (fr = fr0) by congruence; subst fr.
  rewrite (loop_iteration_run h0 f0 l0 fr0 Ha Hfr0) in Hit.
  rewrite (loop_body_done h0 f0 l0 fr0 au Hfr0 Hau) in Hit.
  injection Hit as Hl1 Hout.
  assert (Hn1 : not_visible_since_ts l1 = timestamp fr0).
  { subst l1. cbn [not_visible_since_ts]. unfold hidden_since, became_hidden.
    rewrite Hp0, Hact0. reflexivity. }
  assert (Hp1 : prev_visible l1 = false) by (subst l1; exact Hact0).
  assert (Hmap := hidden_run (timestamp fr0) S Ht0 HS obs l1 Hn1 Hp1 Hall).
  split; [|split].
  - subst out0. rewrite fires_body.
    unfold hidden_too_long, hidden_since, became_hidden.
    rewrite Hp0, Hact0. cbn [negb andb].
    unfold U64.sub. rewrite Z.sub_diag. cbn [U64.wrap].
    rewrite andb_false_iff. right. apply Z.ltb_ge.
    unfold U64.mul, U64.wrap, U64.modulus.
    apply Z.mod_pos_bound. lia.
  - exact Hmap.
  - rewrite <- (first_index_map id (fires HiddenTooLong)).
    rewrite Hmap. rewrite first_index_map. reflexivity.
Qed.

Lemma C2_hidden_too_long_first_fire_witness :
  loop_iteration (obs_host true false) (watched 5 1000 1001) hidden_demo_before
  = IterRun (Done hidden_demo_after [])
  /\ forallb (stays_hidden 1000 5) hidden_demo_late = true
  /\ map (past_deadline 1000 5) hidden_demo_late = [false; false; true; true]
  /\ first_index (fires HiddenTooLong)
       (fst (thread_loop_from hidden_demo_after hidden_demo_late))
     = Some 2%nat.
Proof.
  split; [reflexivity|]. split; [reflexivity|]. split; [reflexivity|].
  destruct (C2_hidden_too_long_first_fire
              (obs_host true false) (watched 5 1000 1001)
              hidden_demo_before hidden_demo_after [] (frame_at 1000)
              5 hidden_demo_late) as (_ & _ & H).
  - reflexivity.
  - reflexivity.
  - reflexivity.
  - reflexivity.
  - simpl; lia.
  - unfold U16.in_range, U16.modulus; simpl; lia.
  - reflexivity.
  - rewrite H. reflexivity.
Defined.

(** C2 as the specification states it fails.  The source becomes hidden at
    video timestamp 1000 with a threshold of 5 seconds; the next tick comes
    at video timestamp 1000 + 5 * 10^9, which has reached the deadline, and
    makes no visibility alert. *)
Lemma C2_fires_at_deadline_counterexample :
  loop_iteration (obs_host true false) (watched 5 1000 1001) hidden_demo_before
  = IterRun (Done hidden_demo_after [])
  /\ forallb (stays_hidden 1000 5) hidden_demo_on_time = true
  /\ first_index (reached_deadline 1000 5) hidden_demo_on_time = Some 0%nat
  /\ first_index (fires HiddenTooLong)
       (fst (thread_loop_from hidden_demo_after hidden_demo_on_time))
     <> first_index (reached_deadline 1000 5) hidden_demo_on_time.
Proof.
  split; [|split; [|split]]; try (vm_compute; reflexivity).
  vm_compute. discriminate.
Qed.

(** ** Lifecycle *)

Lemma filter_update_keeps settings f :
  thread (filter_update settings f) = thread f
  /\ thread_active (filter_update settings f) = thread_active f
  /\ current_frame (filter_update settings f) = current_frame f
  /\ current_audio (filter_update settings f) = current_audio f.
Proof.
  unfold filter_update. split_ifs; cbn; auto.
Qed.

Lemma filter_create_inv settings ctx : lifecycle_inv (filter_create settings ctx).
Proof.
  unfold lifecycle_inv, filter_create.
  cbn [flt tasks thread thread_active set_current_frame set_source].
  destruct (filter_update_keeps settings
              {| context := ctx; source := source bzalloc;
                 current_frame := current_frame bzalloc;
                 current_audio := current_audio bzalloc;
                 video_ts_check := video_ts_check bzalloc;
                 audio_ts_check := audio_ts_check bzalloc;
                 source_enabled_check := source_enabled_check bzalloc;
                 source_enabled_time := source_enabled_time bzalloc;
                 thread := thread bzalloc;
                 thread_active := thread_active bzalloc |})
    as (Ht & Ha & _).
  rewrite Ha, Ht. cbn. auto.
Qed.

(** What a call of [start_thread] that returns has done. *)
Lemma start_thread_effect h s s' :
  start_thread h s = Ok s' ->
  s' = s
  \/ (thread_active (flt s) = false
      /\ s' = {| flt := set_thread (Some (next_tid s))
                          (set_thread_active true (flt s));
                 tasks := <[next_tid s := thread_loop_entry]> (tasks s);
                 next_tid := S (next_tid s);
                 sink := sink s |}).
Proof.
  unfold start_thread.
  destruct (thread_active (flt s)) eqn:Ha; cbn [orb].
  - intros [= <-]. auto.
  - destruct (negb (obs_source_enabled h (context (flt s)))).
    + intros [= <-]. auto.
    + cbn [thread set_thread_active].
      destruct (thread (flt s)); [discriminate|].
      intros [= <-]. right. auto.
Qed.

(** What a call of [end_thread] that returns has done. *)
Lemma end_thread_effect h s s' :
  end_thread h s = Ok s' ->
  s' = s
  \/ exists tk,
       s' = {| flt := set_current_frame None
                        (set_thread None (set_thread_active false (flt s)));
               tasks := tk; next_tid := next_tid s; sink := sink s |}
       /\ (tk = tasks s \/ exists t, tk = delete t (tasks s)).
Proof.
  unfold end_thread.
  destruct (thread_active (flt s)); cbn [negb].
  2:{ intros [= <-]. auto. }
  unfold join. cbn [flt with_flt thread set_thread_active tasks].
  destruct (thread (flt s)) as [t|]; [|discriminate].
  destruct (tasks s !! t) as [l|].
  - destruct (loop_iteration h (set_thread_active false (flt s)) l);
      try discriminate.
    cbn. intros [= <-]. right. eexists. split; [reflexivity|]. right.
    exists t. reflexivity.
  - cbn. intros [= <-]. right. eexists. split; [reflexivity|]. left.
    reflexivity.
Qed.

Lemma start_thread_inv h s :
  lifecycle_inv s ->
  exists s',
    start_thread h s = Ok s' /\ lifecycle_inv s'
    /\ (thread_active (flt s) = true -> s' = s).
Proof.
  unfold lifecycle_inv, start_thread. intros Hinv.
  destruct (thread_active (flt s)) eqn:Ha; cbn [orb].
  - exists s. rewrite Ha. auto.
  - destruct Hinv as [Ht Htk].
    destruct (negb (obs_source_enabled h (context (flt s)))).
    + exists s. rewrite Ha. repeat split; auto; discriminate.
    + cbn [thread set_thread_active]. rewrite Ht.
      eexists. split; [reflexivity|]. split; [|discriminate].
      cbn. exists (next_tid s), thread_loop_entry.
      rewrite Htk, insert_empty. repeat split. lia.
Qed.

Lemma end_thread_inv h s :
  lifecycle_inv s ->
  exists s',
    end_thread h s = Ok s' /\ lifecycle_inv s'
    /\ thread_active (flt s') = false
    /\ tasks s' = ∅
    /\ next_tid s' = next_tid s
    /\ (thread_active (flt s) = false -> s' = s).
Proof.
  unfold lifecycle_inv, end_thread. intros Hinv.
  destruct (thread_active (flt s)) eqn:Ha; cbn [negb].
  - destruct Hinv as (t & l & Ht & Htk & Hlt).
    unfold join. cbn [flt with_flt thread set_thread_active tasks].
    rewrite Ht, Htk, lookup_singleton_eq.
    unfold loop_iteration. cbn [thread_active set_thread_active negb rbind].
    rewrite delete_singleton_eq.
    eexists. split; [reflexivity|]. cbn. repeat split; auto. discriminate.
  - exists s. rewrite Ha. destruct Hinv as [Ht Htk]. repeat split; auto.
Qed.

Lemma filter_video_start_inv h s s1 :
  lifecycle_inv s ->
  filter_video_start h s = Ok s1 ->
  lifecycle_inv s1.
Proof.
  intros Hinv. unfold filter_video_start.
  set (g := match source (flt s) with
            | Some _ => flt s
            | None => set_source (obs_filter_get_parent h (context (flt s))) (flt s)
            end).
  assert (Hg : lifecycle_inv (with_flt g s)).
  { unfold lifecycle_inv in *. subst g. cbn [flt with_flt tasks next_tid].
    destruct (source (flt s)); exact Hinv. }
  destruct (negb (thread_active g) && obs_source_enabled h (context g)
            && obs_source_active h (source g)).
  - intros Hst. destruct (start_thread_inv h _ Hg) as (s' & Hs' & Hi & _).
    congruence.
  - intros [= <-]. exact Hg.
Qed.

Lemma step_inv h e s s' :
  lifecycle_inv s -> step h e s = Ok s' -> lifecycle_inv s'.
Proof.
  intros Hinv. destruct e as [settings|enabled|frame|audio|t]; cbn [step].
  - intros [= <-]. unfold lifecycle_inv in *. cbn [flt with_flt tasks next_tid].
    destruct (filter_update_keeps settings (flt s)) as (Ht & Ha & _).
    rewrite Ha, Ht. exact Hinv.
  - unfold filter_enabled. destruct enabled; intros H.
    + destruct (start_thread_inv h s Hinv) as (s1 & H1 & Hi & _). congruence.
    + destruct (end_thread_inv h s Hinv) as (s1 & H1 & Hi & _). congruence.
  - unfold filter_video.
    destruct (filter_video_start h s) as [s1|] eqn:H1; [|discriminate].
    cbn [rbind].
    destruct (filter_video_stores frame (flt s1)) as [b|]; [|discriminate].
    cbn [rbind snd]. intros [= <-].
    pose proof (filter_video_start_inv h s s1 Hinv H1) as Hi.
    destruct b; [|exact Hi].
    unfold lifecycle_inv in *. exact Hi.
  - cbn. intros [= <-]. unfold lifecycle_inv in *. exact Hinv.
  - unfold watchdog_step. destruct (tasks s !! t) as [l|] eqn:Hl.
    2:{ intros [= <-]. exact Hinv. }
    unfold lifecycle_inv in Hinv. unfold loop_iteration.
    destruct (thread_active (flt s)) eqn:Ha; cbn [negb].
    + destruct Hinv as (t0 & l0 & Ht & Htk & Hlt).
      rewrite Htk in Hl. apply lookup_singleton_Some in Hl as [-> ->].
      destruct (current_frame (flt s)).
      2:{ intros [= <-]. unfold lifecycle_inv. rewrite Ha. eauto. }
      destruct (loop_body h (flt s) l) as [l' out|out]; [|discriminate].
      intros [= <-]. unfold lifecycle_inv. cbn [flt tasks next_tid].
      rewrite Ha. exists t, l'. rewrite Htk, insert_singleton_eq. auto.
    + destruct Hinv as [_ Htk]. rewrite Htk, lookup_empty in Hl. discriminate.
Qed.

Lemma exec_inv evs :
  forall s s', lifecycle_inv s -> exec evs s = Ok s' -> lifecycle_inv s'.
Proof.
  induction evs as [|[h e] evs IH]; intros s s' Hinv; cbn [exec].
  - intros [= <-]. exact Hinv.
  - destruct (step h e s) as [s1|] eqn:H1; [|discriminate].
    cbn [rbind]. intros H. exact (IH s1 s' (step_inv h e s s1 Hinv H1) H).
Qed.

Lemma lifecycle_inv_size s :
  lifecycle_inv s ->
  size (tasks s) = (if thread_active (flt s) then 1 else 0)%nat.
Proof.
  unfold lifecycle_inv. destruct (thread_active (flt s)).
  - intros (t & l & _ & -> & _). apply map_size_singleton.
  - intros [_ ->]. apply map_size_empty.
Qed.

(** ** C5 *)

(** C5.  In every state an instance reaches from its creation, through any
    sequence of callbacks (among them the starts and stops of the "enable"
    signal) and watchdog iterations, there is at most one watchdog task.
    There [start_thread] and [end_thread] always return normally:
    [start_thread] leaves at most one task and changes nothing when a task
    is running; [end_thread] leaves no task and changes nothing when no task
    is running. *)
Theorem C5_single_watchdog settings ctx evs s :
  exec evs (filter_create settings ctx) = Ok s ->
  (size (tasks s) <= 1)%nat
  /\ (forall h, exists s',
        start_thread h s = Ok s'
        /\ (size (tasks s') <= 1)%nat
        /\ (size (tasks s) = 1%nat -> s' = s))
  /\ (forall h, exists s',
        end_thread h s = Ok s'
        /\ size (tasks s') = 0%nat
        /\ (size (tasks s) = 0%nat -> s' = s)).
Proof.
  intros Hrun.
  pose proof (exec_inv evs _ s (filter_create_inv settings ctx) Hrun) as Hinv.
  pose proof (lifecycle_inv_size s Hinv) as Hsz.
  split; [|split].
  - rewrite Hsz. destruct (thread_active (flt s)); lia.
  - intros h. destruct (start_thread_inv h s Hinv) as (s' & Hs' & Hi & Hsame).
    exists s'. split; [exact Hs'|]. split.
    + rewrite (lifecycle_inv_size s' Hi). destruct (thread_active (flt s')); lia.
    + intros H1. apply Hsame. rewrite Hsz in H1.
      destruct (thread_active (flt s)); [reflexivity|discriminate].
  - intros h.
    destruct (end_thread_inv h s Hinv) as (s' & Hs' & Hi & Ha & Htk & _ & Hsame).
    exists s'. split; [exact Hs'|]. split.
    + rewrite Htk. apply map_size_empty.
    + intros H0. apply Hsame. rewrite Hsz in H0.
      destruct (thread_active (flt s)); [discriminate|reflexivity].
Qed.

Lemma C5_single_watchdog_witness :
  exec demo_running (filter_create filter_defaults 0%nat) = Ok demo_state
  /\ size (tasks demo_state) = 1%nat
  /\ start_thread (obs_host true true) demo_state = Ok demo_state.
Proof.
  assert (Hs : exec demo_running (filter_create filter_defaults 0%nat)
               = Ok demo_state) by (vm_compute; reflexivity).
  assert (H1 : size (tasks demo_state) = 1%nat) by apply map_size_singleton.
  split; [exact Hs|]. split; [exact H1|].
  destruct (C5_single_watchdog filter_defaults 0%nat demo_running demo_state Hs)
    as (_ & Hstart & _).
  destruct (Hstart (obs_host true true)) as (s' & Hs' & _ & Hsame).
  rewrite (Hsame H1) in Hs'. exact Hs'.
Defined.

(** ** C6 *)

Lemma alerts_before_app n xs ys :
  alerts_before n (xs ++ ys) = alerts_before n xs ++ alerts_before n ys.
Proof. unfold alerts_before. apply List.filter_app. Qed.

Lemma alerts_before_later n t out :
  (n <= t)%nat -> alerts_before n (map (pair t) out) = [].
Proof.
  intros Hle. unfold alerts_before.
  induction out as [|k out IH]; cbn [map List.filter fst]; [reflexivity|].
  destruct (Nat.ltb_spec t n); [lia|]. exact IH.
Qed.

Lemma tasks_from_delete n t s f :
  tasks_from n s ->
  tasks_from n {| flt := f; tasks := delete t (tasks s);
                  next_tid := next_tid s; sink := sink s |}.
Proof.
  intros [Hn Hall]. split; [exact Hn|]. cbn [tasks].
  intros t' l Hl. apply lookup_delete_Some in Hl as [_ Hl]. eauto.
Qed.

Lemma start_thread_tasks_from n h s s' :
  tasks_from n s -> start_thread h s = Ok s' ->
  tasks_from n s' /\ sink s' = sink s.
Proof.
  intros [Hn Hall] H.
  destruct (start_thread_effect h s s' H) as [->|[_ ->]].
  - split; [split; assumption | reflexivity].
  - split; [|reflexivity]. split; cbn [next_tid tasks].
    + lia.
    + intros t l Hl. apply lookup_insert_Some in Hl as [[<- _]|[_ Hl]]; eauto.
Qed.

Lemma end_thread_tasks_from n h s s' :
  tasks_from n s -> end_thread h s = Ok s' ->
  tasks_from n s' /\ sink s' = sink s.
Proof.
  intros Hfrom H.
  destruct (end_thread_effect h s s' H) as [->|(tk & -> & [->|[t ->]])].
  - auto.
  - split; [|reflexivity]. destruct Hfrom as [Hn Hall]. split; assumption.
  - split; [|reflexivity]. apply tasks_from_delete, Hfrom.
Qed.

(** A step adds no alert call of a task started before [n] when every task
    is one started at or after [n]. *)
Lemma step_tasks_from n h e s s' :
  tasks_from n s -> step h e s = Ok s' ->
  tasks_from n s' /\ alerts_before n (sink s') = alerts_before n (sink s).
Proof.
  intros Hfrom. destruct e as [settings|enabled|frame|audio|t]; cbn [step].
  - intros [= <-]. split; [exact Hfrom | reflexivity].
  - unfold filter_enabled. destruct enabled; intros H.
    + destruct (start_thread_tasks_from n h s s' Hfrom H) as [H1 H2].
      rewrite H2. auto.
    + destruct (end_thread_tasks_from n h s s' Hfrom H) as [H1 H2].
      rewrite H2. auto.
  - unfold filter_video.
    destruct (filter_video_start h s) as [s1|] eqn:H1; [|discriminate].
    cbn [rbind].
    destruct (filter_video_stores frame (flt s1)) as [b|]; [|discriminate].
    cbn [rbind snd]. intros [= <-].
    assert (Hs1 : tasks_from n s1 /\ sink s1 = sink s).
    { unfold filter_video_start in H1.
      match type of H1 with
      | (if ?c then _ else _) = _ => destruct c
      end.
      - apply (start_thread_tasks_from n h _ s1) in H1; [exact H1|].
        exact Hfrom.
      - injection H1 as <-. split; [exact Hfrom | reflexivity]. }
    destruct Hs1 as [Hf1 Hk1].
    destruct b; cbn [sink with_flt]; rewrite Hk1; split; auto.
  - cbn. intros [= <-]. split; [exact Hfrom | reflexivity].
  - unfold watchdog_step. destruct (tasks s !! t) as [l|] eqn:Hl.
    2:{ intros [= <-]. auto. }
    assert (Ht : (n <= t)%nat) by (destruct Hfrom as [_ Hall]; eauto).
    destruct (loop_iteration h (flt s) l) as [| |[l' out|out]].
    + intros [= <-]. split; [|reflexivity]. apply tasks_from_delete, Hfrom.
    + intros [= <-]. auto.
    + intros [= <-]. cbn [sink]. split.
      * destruct Hfrom as [Hn Hall]. split; [exact Hn|]. cbn [tasks].
        intros t' l0 Hl0.
        apply lookup_insert_Some in Hl0 as [[<- _]|[_ Hl0]]; eauto.
      * rewrite alerts_before_app, alerts_before_later by exact Ht.
        apply app_nil_r.
    + discriminate.
Qed.

Lemma exec_tasks_from n evs :
  forall s s',
    tasks_from n s -> exec evs s = Ok s' ->
    alerts_before n (sink s') = alerts_before n (sink s).
Proof.
  induction evs as [|[h e] evs IH]; intros s s' Hfrom; cbn [exec].
  - intros [= <-]. reflexivity.
  - destruct (step h e s) as [s1|] eqn:H1; [|discriminate].
    cbn [rbind]. intros H.
    destruct (step_tasks_from n h e s s1 Hfrom H1) as [Hf1 Hk1].
    rewrite <- Hk1. exact (IH s1 s' Hf1 H).
Qed.

(** C6.  An iteration that finds [thread_active] clear leaves the loop at
    its top, before any check.  In every state an instance reaches from its
    creation, [end_thread] (and so [filter_destroy]) returns normally, and
    when it has returned: the flag is clear, no watchdog task remains on the
    instance, the task that [filter->thread] stood for is among those
    started earlier, and whatever happens to the instance afterwards adds no
    alert call by a task started earlier. *)
Theorem C6_no_alert_after_stop settings ctx evs s h :
  exec evs (filter_create settings ctx) = Ok s ->
  (forall h' f l, loop_iteration h' (set_thread_active false f) l = IterExit)
  /\ exists s',
       end_thread h s = Ok s'
       /\ filter_destroy h s = Ok s'
       /\ thread_active (flt s') = false
       /\ tasks s' = ∅
       /\ (forall t, thread (flt s) = Some t -> (t < next_tid s')%nat)
       /\ (forall evs' s'',
             exec evs' s' = Ok s'' ->
             alerts_before (next_tid s') (sink s'')
             = alerts_before (next_tid s') (sink s')).
Proof.
  intros Hrun.
  pose proof (exec_inv evs _ s (filter_create_inv settings ctx) Hrun) as Hinv.
  split; [reflexivity|].
  destruct (end_thread_inv h s Hinv) as (s' & Hs' & Hi & Ha & Htk & Hn & _).
  exists s'. repeat split; try assumption.
  - intros t Ht. rewrite Hn. unfold lifecycle_inv in Hinv.
    destruct (thread_active (flt s)).
    + destruct Hinv as (t0 & l0 & Ht0 & _ & Hlt). congruence.
    + destruct Hinv as [Hnone _]. congruence.
  - intros evs' s'' Hlater.
    apply (exec_tasks_from (next_tid s') evs' s' s''); [|exact Hlater].
    split; [lia|]. intros t l Hl. rewrite Htk, lookup_empty in Hl.
    discriminate.
Qed.

Lemma C6_no_alert_after_stop_witness :
  exec demo_running (filter_create filter_defaults 0%nat) = Ok demo_state
  /\ exists s',
       end_thread (obs_host false true) demo_state = Ok s'
       /\ tasks s' = ∅
       /\ alerts_before (next_tid s') (sink s')
          = [(0%nat, StalledVideo); (0%nat, StalledAudio)].
Proof.
  assert (Hs : exec demo_running (filter_create filter_defaults 0%nat)
               = Ok demo_state) by (vm_compute; reflexivity).
  split; [exact Hs|].
  destruct (C6_no_alert_after_stop filter_defaults 0%nat demo_running
              demo_state (obs_host false true) Hs)
    as (_ & s' & Hs' & _ & _ & Htk & _ & _).
  exists s'. split; [exact Hs'|]. split; [exact Htk|].
  vm_compute in Hs'. injection Hs' as <-. reflexivity.
Defined.

(** ** C10 *)

(** Lines 262-266 of [filter_video] touch neither the recorded samples, nor
    the configuration, nor the alerts. *)
Lemma filter_video_start_keeps h s s1 :
  filter_video_start h s = Ok s1 ->
  current_frame (flt s1) = current_frame (flt s)
  /\ current_audio (flt s1) = current_audio (flt s)
  /\ same_config (flt s) (flt s1)
  /\ sink s1 = sink s.
Proof.
  unfold filter_video_start.
  set (g := match source (flt s) with
            | Some _ => flt s
            | None => set_source (obs_filter_get_parent h (context (flt s))) (flt s)
            end).
  assert (Hg : current_frame g = current_frame (flt s)
               /\ current_audio g = current_audio (flt s)
               /\ same_config (flt s) g).
  { subst g. unfold same_config. destruct (source (flt s)); cbn; auto 10. }
  destruct Hg as (Hf & Ha & Hc).
  destruct (negb (thread_active g) && obs_source_enabled h (context g)
            && obs_source_active h (source g)).
  - intros H. apply start_thread_effect in H as [->|[_ ->]].
    + cbn [flt with_flt sink]. auto.
    + cbn [flt with_flt sink]. unfold same_config in *. cbn. auto.
  - intros [= <-]. cbn [flt with_flt sink]. auto.
Qed.

(** C10.  [filter_video] returns the frame pointer it was given and
    [filter_audio] the audio pointer it was given; the structs they point
    to are those the callers passed.  Recording the frame, after the lines
    that look up the parent and may start the watchdog, assigns
    [current_frame] or changes nothing: the stored frame is kept when one
    is stored and the incoming frame has its timestamp, and is replaced by
    the incoming one otherwise.  The stored audio packet, the configuration
    and the alerts are untouched by [filter_video].  [filter_audio] assigns
    [current_audio] and changes nothing else. *)
Theorem C10_callbacks_pass_through :
  (forall h frame s r s',
     filter_video h frame s = Ok (r, s') ->
     r = frame
     /\ (exists s1,
           filter_video_start h s = Ok s1
           /\ (s' = s1 \/ s' = with_flt (set_current_frame frame (flt s1)) s1))
     /\ current_frame (flt s')
        = match current_frame (flt s), frame with
          | Some cur, Some fr =>
              if timestamp fr =? timestamp cur then Some cur else Some fr
          | _, _ => frame
          end
     /\ current_audio (flt s') = current_audio (flt s)
     /\ same_config (flt s) (flt s')
     /\ sink s' = sink s)
  /\ (forall audio s,
        fst (filter_audio audio s) = audio
        /\ flt (snd (filter_audio audio s)) = set_current_audio audio (flt s)
        /\ current_audio (flt (snd (filter_audio audio s))) = audio
        /\ current_frame (flt (snd (filter_audio audio s))) = current_frame (flt s)
        /\ same_config (flt s) (flt (snd (filter_audio audio s)))
        /\ thread (flt (snd (filter_audio audio s))) = thread (flt s)
        /\ thread_active (flt (snd (filter_audio audio s))) = thread_active (flt s)
        /\ source (flt (snd (filter_audio audio s))) = source (flt s)
        /\ tasks (snd (filter_audio audio s)) = tasks s
        /\ next_tid (snd (filter_audio audio s)) = next_tid s
        /\ sink (snd (filter_audio audio s)) = sink s).
Proof.
  split.
  - intros h frame s r s'. unfold filter_video.
    destruct (filter_video_start h s) as [s1|] eqn:H1; [|discriminate].
    cbn [rbind].
    destruct (filter_video_start_keeps h s s1 H1) as (Hf & Ha & Hc & Hk).
    unfold filter_video_stores. rewrite Hf.
    destruct (current_frame (flt s)) as [cur|] eqn:Hcur.
    + destruct frame as [fr|]; [|discriminate]. cbn [rbind].
      destruct (timestamp fr =? timestamp cur); cbn [negb].
      * intros [= <- <-]. split; [reflexivity|].
        split; [exists s1; auto|]. rewrite Hf. auto.
      * intros [= <- <-]. split; [reflexivity|].
        split; [exists s1; auto|]. cbn. unfold same_config in *. auto 10.
    + cbn [rbind]. intros [= <- <-]. split; [reflexivity|].
      split; [exists s1; auto|]. cbn. unfold same_config in *. auto 10.
  - intros audio s. unfold same_config. cbn. auto 15.
Qed.

Lemma C10_callbacks_pass_through_witness :
  filter_video (obs_host true true)
    (Some {| timestamp := 10; frame_data := [1; 2; 3] |}) demo_state
  = Ok (Some {| timestamp := 10; frame_data := [1; 2; 3] |}, demo_state)
  /\ current_frame (flt demo_state) = Some (frame_at 10).
Proof.
  split; [reflexivity|].
  destruct C10_callbacks_pass_through as [Hvideo _].
  destruct (Hvideo (obs_host true true)
              (Some {| timestamp := 10; frame_data := [1; 2; 3] |})
              demo_state
              (Some {| timestamp := 10; frame_data := [1; 2; 3] |})
              demo_state eq_refl)
    as (_ & _ & Hkept & _).
  exact Hkept.
Defined.

(** * Further properties of the filter *)

(** ** [filter_update] *)

Lemma u16_wrap_range z : U16.in_range (U16.wrap z).
Proof.
  unfold U16.in_range, U16.wrap, U16.modulus. apply Z.mod_pos_bound. lia.
Qed.

(** What [filter_update] leaves in each member. *)
Lemma filter_update_fields settings f :
  video_ts_check (filter_update settings f) = SETTING_VIDEO_TS_CHECK settings
  /\ audio_ts_check (filter_update settings f) = SETTING_AUDIO_TS_CHECK settings
  /\ source_enabled_check (filter_update settings f)
     = SETTING_SOURCE_ENABLED_CHECK settings
  /\ source_enabled_time (filter_update settings f)
     = SETTING_SOURCE_ENABLED_TIME settings mod 2 ^ 16
  /\ context (filter_update settings f) = context f
  /\ source (filter_update settings f) = source f
  /\ current_frame (filter_update settings f) = current_frame f
  /\ current_audio (filter_update settings f) = current_audio f
  /\ thread (filter_update settings f) = thread f
  /\ thread_active (filter_update settings f) = thread_active f.
Proof.
  destruct settings as [sv sa ss st], f as [c so cf ca v a e t th ta].
  unfold filter_update.
  cbn [SETTING_VIDEO_TS_CHECK SETTING_AUDIO_TS_CHECK
       SETTING_SOURCE_ENABLED_CHECK SETTING_SOURCE_ENABLED_TIME].
  change (U16.wrap st) with (st mod 2 ^ 16).
  destruct sv, sa, ss, v, a, e; cbn;
    destruct (Z.eqb_spec (st mod 2 ^ 16) t); cbn; repeat split; congruence.
Qed.

(** X1.  After [filter_update] the three check flags are those of the
    settings and the threshold is the setting's integer cut to 16 bits;
    the recorded samples, the source, the context and the thread members
    are as before. *)
Theorem filter_update_applies settings f :
  video_ts_check (filter_update settings f) = SETTING_VIDEO_TS_CHECK settings
  /\ audio_ts_check (filter_update settings f) = SETTING_AUDIO_TS_CHECK settings
  /\ source_enabled_check (filter_update settings f)
     = SETTING_SOURCE_ENABLED_CHECK settings
  /\ source_enabled_time (filter_update settings f)
     = SETTING_SOURCE_ENABLED_TIME settings mod 2 ^ 16
  /\ context (filter_update settings f) = context f
  /\ source (filter_update settings f) = source f
  /\ current_frame (filter_update settings f) = current_frame f
  /\ current_audio (filter_update settings f) = current_audio f
  /\ thread (filter_update settings f) = thread f
  /\ thread_active (filter_update settings f) = thread_active f.
Proof. exact (filter_update_fields settings f). Qed.

Lemma capture_checker_data_ext (f g : capture_checker_data) :
  context f = context g -> source f = source g ->
  current_frame f = current_frame g -> current_audio f = current_audio g ->
  video_ts_check f = video_ts_check g -> audio_ts_check f = audio_ts_check g ->
  source_enabled_check f = source_enabled_check g ->
  source_enabled_time f = source_enabled_time g ->
  thread f = thread g -> thread_active f = thread_active g ->
  f = g.
Proof.
  destruct f, g; cbn; intros; subst; reflexivity.
Qed.

(** X2.  Of two updates in a row the second alone counts, so giving the
    same settings twice changes nothing the second time. *)
Theorem filter_update_last_wins s1 s2 f :
  filter_update s2 (filter_update s1 f) = filter_update s2 f
  /\ filter_update s1 (filter_update s1 f) = filter_update s1 f.
Proof.
  assert (H : forall a b, filter_update b (filter_update a f) = filter_update b f).
  { intros a b.
    pose proof (filter_update_fields b (filter_update a f)) as Hl.
    pose proof (filter_update_fields b f) as Hr.
    pose proof (filter_update_fields a f) as Hm.
    apply capture_checker_data_ext; intuition congruence. }
  split; apply H.
Qed.

(** X3.  Whatever the setting, the threshold that [filter_update] stores
    fits 16 bits and its product with 10^9 at line 243 does not wrap.  A
    value of the slider (1 to 3600) is stored as it is. *)
Theorem filter_update_threshold settings f :
  U16.in_range (source_enabled_time (filter_update settings f))
  /\ U64.mul 1000000000 (source_enabled_time (filter_update settings f))
     = 1000000000 * (SETTING_SOURCE_ENABLED_TIME settings mod 2 ^ 16)
  /\ (on_slider (SETTING_SOURCE_ENABLED_TIME settings) = true ->
      source_enabled_time (filter_update settings f)
      = SETTING_SOURCE_ENABLED_TIME settings).
Proof.
  destruct (filter_update_fields settings f) as (_ & _ & _ & Ht & _).
  rewrite Ht. split; [apply u16_wrap_range|]. split.
  - apply u64_mul_seconds. apply u16_wrap_range.
  - unfold on_slider, slider_min, slider_max. intros H.
    apply andb_true_iff in H as [Hlo Hhi].
    apply Z.leb_le in Hlo. apply Z.leb_le in Hhi.
    apply Z.mod_small. lia.
Qed.

Lemma filter_update_threshold_witness :
  on_slider 3600 = true
  /\ source_enabled_time
       (filter_update
          {| SETTING_VIDEO_TS_CHECK := true; SETTING_AUDIO_TS_CHECK := false;
             SETTING_SOURCE_ENABLED_CHECK := true;
             SETTING_SOURCE_ENABLED_TIME := 3600 |} (watched 5 1 2))
     = 3600.
Proof.
  split; [reflexivity|].
  destruct (filter_update_threshold
              {| SETTING_VIDEO_TS_CHECK := true; SETTING_AUDIO_TS_CHECK := false;
                 SETTING_SOURCE_ENABLED_CHECK := true;
                 SETTING_SOURCE_ENABLED_TIME := 3600 |} (watched 5 1 2))
    as (_ & _ & H).
  apply H. reflexivity.
Defined.

(** ** Lifecycle *)

(** X4.  On an instance reached from its creation, [start_thread] does
    nothing when the filter is not enabled; when it is enabled and no
    watchdog runs, it starts exactly one task, at the entry of
    [thread_loop], and touches neither the samples nor the configuration
    nor the alerts. *)
Theorem start_thread_starts settings ctx evs s h :
  exec evs (filter_create settings ctx) = Ok s ->
  (obs_source_enabled h (context (flt s)) = false -> start_thread h s = Ok s)
  /\ (obs_source_enabled h (context (flt s)) = true ->
      thread_active (flt s) = false ->
      exists s',
        start_thread h s = Ok s'
        /\ thread_active (flt s') = true
        /\ thread (flt s') = Some (next_tid s)
        /\ tasks s' = {[next_tid s := thread_loop_entry]}
        /\ current_frame (flt s') = current_frame (flt s)
        /\ current_audio (flt s') = current_audio (flt s)
        /\ same_config (flt s) (flt s')
        /\ sink s' = sink s).
Proof.
  intros Hrun.
  pose proof (exec_inv evs _ s (filter_create_inv settings ctx) Hrun) as Hinv.
  split.
  - intros Hen. unfold start_thread. rewrite Hen, orb_true_r. reflexivity.
  - intros Hen Hact. unfold lifecycle_inv in Hinv. rewrite Hact in Hinv.
    destruct Hinv as [Hth Htk].
    unfold start_thread. rewrite Hen, Hact. cbn [orb negb thread set_thread_active].
    rewrite Hth. eexists. split; [reflexivity|].
    cbn. rewrite Htk, insert_empty. unfold same_config.
    repeat split.
Qed.

Lemma start_thread_starts_witness :
  exec [] (filter_create filter_defaults 0%nat)
  = Ok (filter_create filter_defaults 0%nat)
  /\ exists s',
       start_thread (obs_host true false) (filter_create filter_defaults 0%nat)
       = Ok s'
       /\ tasks s' = {[0%nat := thread_loop_entry]}.
Proof.
  split; [reflexivity|].
  destruct (start_thread_starts filter_defaults 0%nat []
              (filter_create filter_defaults 0%nat) (obs_host true false)
              eq_refl) as [_ H].
  destruct (H eq_refl eq_refl) as (s' & Hs' & _ & _ & Htk & _).
  exists s'. split; [exact Hs' | exact Htk].
Defined.

(** What [end_thread] leaves of an instance whose watchdog runs. *)
Lemma end_thread_running h s :
  lifecycle_inv s ->
  thread_active (flt s) = true ->
  exists s',
    end_thread h s = Ok s'
    /\ current_frame (flt s') = None
    /\ current_audio (flt s') = current_audio (flt s)
    /\ source (flt s') = source (flt s)
    /\ same_config (flt s) (flt s')
    /\ sink s' = sink s
    /\ next_tid s' = next_tid s.
Proof.
  intros Hinv Hact.
  destruct (end_thread_inv h s Hinv) as (s' & Hs' & _).
  exists s'. split; [exact Hs'|].
  destruct (end_thread_effect h s s' Hs') as [->|(tk & -> & _)].
  - unfold end_thread in Hs'. rewrite Hact in Hs'. cbn [negb] in Hs'.
    unfold lifecycle_inv in Hinv. rewrite Hact in Hinv.
    destruct Hinv as (t & l & Ht & Htk & _).
    unfold join in Hs'. cbn [flt with_flt thread set_thread_active tasks] in Hs'.
    rewrite Ht, Htk, lookup_singleton_eq in Hs'.
    unfold loop_iteration in Hs'.
    cbn [thread_active set_thread_active negb rbind] in Hs'.
    injection Hs' as Hs'. rewrite <- Hs'. cbn. unfold same_config. auto 10.
  - cbn. unfold same_config. auto 10.
Qed.

(** X5.  On an instance reached from its creation whose watchdog runs,
    [end_thread] forgets the recorded frame (line 124) and keeps the
    recorded audio packet, the source, the configuration and the alerts. *)
Theorem end_thread_forgets_frame settings ctx evs s h :
  exec evs (filter_create settings ctx) = Ok s ->
  thread_active (flt s) = true ->
  exists s',
    end_thread h s = Ok s'
    /\ current_frame (flt s') = None
    /\ current_audio (flt s') = current_audio (flt s)
    /\ source (flt s') = source (flt s)
    /\ same_config (flt s) (flt s')
    /\ sink s' = sink s
    /\ next_tid s' = next_tid s.
Proof.
  intros Hrun Hact.
  apply end_thread_running; [|exact Hact].
  exact (exec_inv evs _ s (filter_create_inv settings ctx) Hrun).
Qed.

Lemma end_thread_forgets_frame_witness :
  exec demo_running (filter_create filter_defaults 0%nat) = Ok demo_state
  /\ thread_active (flt demo_state) = true
  /\ exists s',
       end_thread (obs_host true true) demo_state = Ok s'
       /\ current_frame (flt s') = None
       /\ current_audio (flt s') = Some (audio_at 11).
Proof.
  assert (Hs : exec demo_running (filter_create filter_defaults 0%nat)
               = Ok demo_state) by (vm_compute; reflexivity).
  split; [exact Hs|]. split; [reflexivity|].
  destruct (end_thread_forgets_frame filter_defaults 0%nat demo_running
              demo_state (obs_host true true) Hs eq_refl)
    as (s' & Hs' & Hf & Ha & _).
  exists s'. split; [exact Hs'|]. split; [exact Hf | exact Ha].
Defined.

(** X6.  Stopping a running watchdog and starting it again leaves one new
    task, under a new thread identity and at the entry of [thread_loop]; as
    the frame was forgotten, its iterations are skipped, whatever the host
    answers, until [filter_video] records a frame. *)
Theorem restart_waits_for_frame settings ctx evs s h :
  exec evs (filter_create settings ctx) = Ok s ->
  thread_active (flt s) = true ->
  obs_source_enabled h (context (flt s)) = true ->
  exists s',
    restart h s = Ok s'
    /\ tasks s' = {[next_tid s := thread_loop_entry]}
    /\ thread (flt s) <> Some (next_tid s)
    /\ (forall h', watchdog_step h' (next_tid s) s' = Ok s')
    /\ sink s' = sink s.
Proof.
  intros Hrun Hact Hen.
  pose proof (exec_inv evs _ s (filter_create_inv settings ctx) Hrun) as Hinv.
  destruct (end_thread_running h s Hinv Hact)
    as (s1 & Hs1 & Hf1 & _ & _ & Hc1 & Hk1 & Hn1).
  destruct (end_thread_inv h s Hinv) as (s1' & Hs1' & Hi1 & Ha1 & Htk1 & _).
  assert (s1' = s1) by congruence; subst s1'.
  unfold restart. rewrite Hs1. cbn [rbind].
  unfold lifecycle_inv in Hi1. rewrite Ha1 in Hi1. destruct Hi1 as [Hth1 _].
  destruct Hc1 as (Hctx & _).
  unfold start_thread. rewrite Ha1, Hctx, Hen.
  cbn [orb negb thread set_thread_active]. rewrite Hth1.
  eexists. split; [reflexivity|]. cbn [tasks flt sink next_tid].
  rewrite Htk1, insert_empty, Hn1. split; [reflexivity|]. split.
  - unfold lifecycle_inv in Hinv. rewrite Hact in Hinv.
    destruct Hinv as (t & l & Ht & _ & Hlt). rewrite Ht. intros [= E]. lia.
  - split; [|exact Hk1].
    intros h'. unfold watchdog_step. cbn [tasks flt].
    rewrite lookup_singleton_eq. unfold loop_iteration.
    cbn [thread_active set_thread set_thread_active current_frame negb].
    rewrite Hf1. reflexivity.
Qed.

Lemma restart_waits_for_frame_witness :
  exec demo_running (filter_create filter_defaults 0%nat) = Ok demo_state
  /\ exists s',
       restart (obs_host true true) demo_state = Ok s'
       /\ tasks s' = {[1%nat := thread_loop_entry]}
       /\ watchdog_step (obs_host true false) 1%nat s' = Ok s'.
Proof.
  assert (Hs : exec demo_running (filter_create filter_defaults 0%nat)
               = Ok demo_state) by (vm_compute; reflexivity).
  split; [exact Hs|].
  destruct (restart_waits_for_frame filter_defaults 0%nat demo_running
              demo_state (obs_host true true) Hs eq_refl eq_refl)
    as (s' & Hs' & Htk & _ & Hskip & _).
  exists s'. split; [exact Hs'|]. split; [exact Htk|]. apply Hskip.
Defined.

(** ** Callbacks *)

Lemma start_thread_keeps_source h s s' :
  start_thread h s = Ok s' ->
  source (flt s') = source (flt s)
  /\ current_audio (flt s') = current_audio (flt s).
Proof.
  intros H. destruct (start_thread_effect h s s' H) as [->|[_ ->]]; auto.
Qed.

Lemma end_thread_keeps_source h s s' :
  end_thread h s = Ok s' ->
  source (flt s') = source (flt s)
  /\ current_audio (flt s') = current_audio (flt s).
Proof.
  intros H. destruct (end_thread_effect h s s' H) as [->|(tk & -> & _)]; auto.
Qed.

Lemma watchdog_step_keeps_flt h t s s' :
  watchdog_step h t s = Ok s' -> flt s' = flt s.
Proof.
  unfold watchdog_step. destruct (tasks s !! t) as [l|].
  2:{ intros [= <-]. reflexivity. }
  destruct (loop_iteration h (flt s) l) as [| |[l' out|out]];
    try discriminate; intros [= <-]; reflexivity.
Qed.

Lemma step_keeps_source h e s s' p :
  source (flt s) = Some p -> step h e s = Ok s' -> source (flt s') = Some p.
Proof.
  intros Hp. destruct e as [settings|enabled|frame|audio|t]; cbn [step].
  - intros [= <-]. cbn [flt with_flt].
    destruct (filter_update_fields settings (flt s)) as (_ & _ & _ & _ & _ & Hs & _).
    congruence.
  - unfold filter_enabled. destruct enabled; intros H.
    + apply start_thread_keeps_source in H as [H _]. congruence.
    + apply end_thread_keeps_source in H as [H _]. congruence.
  - unfold filter_video.
    destruct (filter_video_start h s) as [s1|] eqn:H1; [|discriminate].
    cbn [rbind].
    destruct (filter_video_stores frame (flt s1)) as [b|]; [|discriminate].
    cbn [rbind snd]. intros [= <-].
    assert (Hs1 : source (flt s1) = Some p).
    { unfold filter_video_start in H1. rewrite Hp in H1.
      match type of H1 with
      | (if ?c then _ else _) = _ => destruct c
      end.
      - apply start_thread_keeps_source in H1 as [H1 _].
        cbn [flt with_flt] in H1. congruence.
      - injection H1 as <-. exact Hp. }
    destruct b; exact Hs1.
  - cbn. intros [= <-]. exact Hp.
  - intros H. apply watchdog_step_keeps_flt in H. congruence.
Qed.

(** X7.  The parent source is looked up while [filter->source] is null
    only: once a source is held, no callback and no watchdog iteration
    changes it. *)
Theorem source_is_kept evs :
  forall s s' p,
    source (flt s) = Some p -> exec evs s = Ok s' -> source (flt s') = Some p.
Proof.
  induction evs as [|[h e] evs IH]; intros s s' p Hp; cbn [exec].
  - intros [= <-]. exact Hp.
  - destruct (step h e s) as [s1|] eqn:H1; [|discriminate].
    cbn [rbind]. intros H.
    exact (IH s1 s' p (step_keeps_source h e s s1 p Hp H1) H).
Qed.

Lemma source_is_kept_witness :
  source (flt demo_state) = Some 1%nat.
Proof.
  apply (source_is_kept
           [(obs_host true true, Watchdog 0%nat);
            (obs_host true true, Watchdog 0%nat)]
           {| flt := watched 5 10 11;
              tasks := {[0%nat := thread_loop_entry]};
              next_tid := 1%nat; sink := [] |}
           demo_state 1%nat).
  - reflexivity.
  - vm_compute. reflexivity.
Defined.

(** X8.  On an instance reached from its creation, [filter_video] given a
    frame returns normally, and a frame with the timestamp of the one
    given is then recorded: the one given, or the one already recorded when
    it has that timestamp. *)
Theorem filter_video_records settings ctx evs s h fr :
  exec evs (filter_create settings ctx) = Ok s ->
  exists s' cur,
    filter_video h (Some fr) s = Ok (Some fr, s')
    /\ current_frame (flt s') = Some cur
    /\ timestamp cur = timestamp fr
    /\ (cur = fr \/ current_frame (flt s) = Some cur).
Proof.
  intros Hrun.
  pose proof (exec_inv evs _ s (filter_create_inv settings ctx) Hrun) as Hinv.
  assert (H1 : exists s1, filter_video_start h s = Ok s1).
  { unfold filter_video_start.
    match goal with
    | |- exists _, (if ?c then _ else _) = _ => destruct c
    end; [|eauto].
    match goal with
    | |- exists _, start_thread h ?x = _ =>
        destruct (start_thread_inv h x) as (s1 & Hs1 & _); [|eauto]
    end.
    unfold lifecycle_inv in *. cbn [flt with_flt tasks next_tid].
    destruct (source (flt s)); exact Hinv. }
  destruct H1 as [s1 H1].
  destruct (filter_video_start_keeps h s s1 H1) as (Hf & _).
  unfold filter_video. rewrite H1. cbn [rbind].
  unfold filter_video_stores. rewrite Hf.
  destruct (current_frame (flt s)) as [cur|] eqn:Hcur; cbn [rbind].
  - destruct (Z.eqb_spec (timestamp fr) (timestamp cur)) as [E|E]; cbn [negb].
    + exists s1, cur. rewrite Hf. auto.
    + eexists _, fr. split; [reflexivity|]. cbn. auto.
  - eexists _, fr. split; [reflexivity|]. cbn. auto.
Qed.

Lemma filter_video_records_witness :
  exec demo_running (filter_create filter_defaults 0%nat) = Ok demo_state
  /\ exists s' cur,
       filter_video (obs_host true true) (Some (frame_at 12)) demo_state
       = Ok (Some (frame_at 12), s')
       /\ current_frame (flt s') = Some cur
       /\ timestamp cur = 12.
Proof.
  assert (Hs : exec demo_running (filter_create filter_defaults 0%nat)
               = Ok demo_state) by (vm_compute; reflexivity).
  split; [exact Hs|].
  destruct (filter_video_records filter_defaults 0%nat demo_running
              demo_state (obs_host true true) (frame_at 12) Hs)
    as (s' & cur & H1 & H2 & H3 & _).
  exists s', cur. split; [exact H1|]. split; [exact H2 | exact H3].
Defined.

(** ** Failures *)

Lemma step_fails_by_null h e s er :
  lifecycle_inv s -> step h e s = Err er -> er = NullDeref.
Proof.
  intros Hinv. destruct e as [settings|enabled|frame|audio|t]; cbn [step].
  - discriminate.
  - unfold filter_enabled. destruct enabled; intros H.
    + destruct (start_thread_inv h s Hinv) as (s1 & H1 & _). congruence.
    + destruct (end_thread_inv h s Hinv) as (s1 & H1 & _). congruence.
  - unfold filter_video.
    destruct (filter_video_start h s) as [s1|e1] eqn:H1; cbn [rbind].
    + unfold filter_video_stores.
      destruct (current_frame (flt s1)); [|discriminate].
      destruct frame; cbn [rbind]; [discriminate|]. intros [= <-]. reflexivity.
    + exfalso. unfold filter_video_start in H1.
      match type of H1 with
      | (if ?c then _ else _) = _ => destruct c
      end; [|discriminate].
      match type of H1 with
      | start_thread h ?x = _ =>
          destruct (start_thread_inv h x) as (s1 & Hs1 & _); [|congruence]
      end.
      unfold lifecycle_inv in *. cbn [flt with_flt tasks next_tid].
      destruct (source (flt s)); exact Hinv.
  - discriminate.
  - unfold watchdog_step. destruct (tasks s !! t) as [l|]; [|discriminate].
    destruct (loop_iteration h (flt s) l) as [| |[l' out|out]];
      try discriminate.
    intros [= <-]. reflexivity.
Qed.

(** X9.  From the creation of an instance, a sequence of callbacks and
    watchdog iterations that does not run to its end stops on a null
    pointer: [filter->thread] is never assigned while joinable, never
    joined while not joinable, and no [join] waits for ever. *)
Theorem only_null_pointers_fail settings ctx evs er :
  exec evs (filter_create settings ctx) = Err er -> er = NullDeref.
Proof.
  generalize (filter_create_inv settings ctx).
  generalize (filter_create settings ctx) as s.
  induction evs as [|[h e] evs IH]; intros s Hinv; cbn [exec].
  - discriminate.
  - destruct (step h e s) as [s1|e1] eqn:H1; cbn [rbind].
    + apply IH. exact (step_inv h e s s1 Hinv H1).
    + intros [= <-]. exact (step_fails_by_null h e s e1 Hinv H1).
Qed.

Lemma only_null_pointers_fail_witness :
  exec [(obs_host true true, Video (Some (frame_at 1)));
        (obs_host true true, Watchdog 0%nat)]
       (filter_create filter_defaults 0%nat)
  = Err NullDeref.
Proof.
  destruct (exec [(obs_host true true, Video (Some (frame_at 1)));
                  (obs_host true true, Watchdog 0%nat)]
                 (filter_create filter_defaults 0%nat)) as [s|er] eqn:H.
  - vm_compute in H. discriminate.
  - rewrite (only_null_pointers_fail filter_defaults 0%nat _ er H).
    reflexivity.
Defined.

Lemma step_keeps_audio h e s s' :
  passes_sample (h, e) = true ->
  is_some (current_audio (flt s)) = true ->
  step h e s = Ok s' ->
  is_some (current_audio (flt s')) = true.
Proof.
  intros Hp Ha. destruct e as [settings|enabled|frame|audio|t]; cbn [step].
  - intros [= <-]. cbn [flt with_flt].
    destruct (filter_update_fields settings (flt s))
      as (_ & _ & _ & _ & _ & _ & _ & Hau & _).
    rewrite Hau. exact Ha.
  - unfold filter_enabled. destruct enabled; intros H.
    + apply start_thread_keeps_source in H as [_ H]. rewrite H. exact Ha.
    + apply end_thread_keeps_source in H as [_ H]. rewrite H. exact Ha.
  - unfold filter_video.
    destruct (filter_video_start h s) as [s1|] eqn:H1; [|discriminate].
    cbn [rbind].
    destruct (filter_video_stores frame (flt s1)) as [b|]; [|discriminate].
    cbn [rbind snd]. intros [= <-].
    destruct (filter_video_start_keeps h s s1 H1) as (_ & Hau & _).
    destruct b; cbn [flt with_flt current_audio set_current_frame];
      rewrite Hau; exact Ha.
  - destruct audio as [au|]; [|discriminate]. cbn. intros [= <-]. reflexivity.
  - intros H. apply watchdog_step_keeps_flt in H. rewrite H. exact Ha.
Qed.

Lemma step_runs_with_audio h e s :
  lifecycle_inv s ->
  passes_sample (h, e) = true ->
  is_some (current_audio (flt s)) = true ->
  exists s', step h e s = Ok s'.
Proof.
  intros Hinv Hp Ha.
  destruct (step h e s) as [s'|er] eqn:H; [eauto|].
  exfalso.
  pose proof (step_fails_by_null h e s er Hinv H) as ->.
  destruct e as [settings|enabled|frame|audio|t]; cbn [step] in H.
  - discriminate.
  - unfold filter_enabled in H. destruct enabled.
    + destruct (start_thread_inv h s Hinv) as (s1 & H1 & _). congruence.
    + destruct (end_thread_inv h s Hinv) as (s1 & H1 & _). congruence.
  - destruct frame as [fr|]; [|discriminate].
    unfold filter_video in H.
    destruct (filter_video_start h s) as [s1|e1] eqn:H1; cbn [rbind] in H.
    + unfold filter_video_stores in H.
      destruct (current_frame (flt s1)); discriminate.
    + unfold filter_video_start in H1.
      match type of H1 with
      | (if ?c then _ else _) = _ => destruct c
      end; [|discriminate].
      match type of H1 with
      | start_thread h ?x = _ =>
          destruct (start_thread_inv h x) as (s1 & Hs1 & _); [|congruence]
      end.
      unfold lifecycle_inv in *. cbn [flt with_flt tasks next_tid].
      destruct (source (flt s)); exact Hinv.
  - discriminate.
  - unfold watchdog_step in H. destruct (tasks s !! t) as [l|]; [|discriminate].
    unfold loop_iteration in H.
    destruct (negb (thread_active (flt s))); [discriminate|].
    destruct (current_frame (flt s)) as [fr|] eqn:Hfr; [|discriminate].
    destruct (current_audio (flt s)) as [au|] eqn:Hau; [|discriminate].
    rewrite (loop_body_done h (flt s) l fr au Hfr Hau) in H. discriminate.
Qed.

(** X10.  Once an audio packet is recorded on an instance reached from its
    creation, and as long as the host hands frames and packets rather than
    null pointers, every sequence of callbacks and watchdog iterations runs
    to its end: no iteration faults. *)
Theorem runs_once_audio_recorded settings ctx evs0 s evs :
  exec evs0 (filter_create settings ctx) = Ok s ->
  is_some (current_audio (flt s)) = true ->
  forallb passes_sample evs = true ->
  exists s', exec evs s = Ok s'.
Proof.
  intros Hrun.
  pose proof (exec_inv evs0 _ s (filter_create_inv settings ctx) Hrun) as Hinv.
  clear Hrun. revert s Hinv.
  induction evs as [|[h e] evs IH]; intros s Hinv Ha Hall; cbn [exec].
  - eauto.
  - cbn [forallb] in Hall. apply andb_true_iff in Hall as [Hp Hall].
    destruct (step_runs_with_audio h e s Hinv Hp Ha) as [s1 H1].
    rewrite H1. cbn [rbind].
    apply IH; [exact (step_inv h e s s1 Hinv H1)| |exact Hall].
    exact (step_keeps_audio h e s s1 Hp Ha H1).
Qed.

Lemma runs_once_audio_recorded_witness :
  exec demo_running (filter_create filter_defaults 0%nat) = Ok demo_state
  /\ forallb passes_sample demo_session = true
  /\ exists s', exec demo_session demo_state = Ok s'.
Proof.
  assert (Hs : exec demo_running (filter_create filter_defaults 0%nat)
               = Ok demo_state) by (vm_compute; reflexivity).
  split; [exact Hs|]. split; [reflexivity|].
  apply (runs_once_audio_recorded filter_defaults 0%nat demo_running
           demo_state demo_session Hs); reflexivity.
Defined.

(** ** Where alerts come from *)




(** ** What an iteration never does *)

(** An iteration calls an alert only when the check of that kind is on,
    whether it completes or faults. *)
Lemma loop_body_alert_needs_check k h f l fr :
  current_frame f = Some fr ->
  fires k (alerts_of (loop_body h f l)) = true ->
  check_enabled k h f = true.
Proof.
  intros Hfr.
  destruct (current_audio f) as [au|] eqn:Hau.
  - rewrite (loop_body_done h f l fr au Hfr Hau). cbn [alerts_of].
    rewrite fires_body.
    unfold video_stalled, audio_stalled, hidden_too_long, check_enabled.
    destruct k; intros H; apply andb_true_iff in H as [H _]; exact H.
  - unfold loop_body, check_enabled, and_then, when.
    rewrite Hfr, Hau.
    destruct k, (video_ts_check f), (audio_ts_check f), (source_enabled_check f),
      (obs_source_active h (source f)), (prev_visible l); cbn;
      split_ifs; cbn; congruence.
Qed.

Lemma loop_iteration_alert_needs_check k h f l r :
  loop_iteration h f l = IterRun r ->
  fires k (alerts_of r) = true ->
  check_enabled k h f = true.
Proof.
  unfold loop_iteration.
  destruct (negb (thread_active f)); [discriminate|].
  destruct (current_frame f) as [fr|] eqn:Hfr; [|discriminate].
  intros [= <-]. apply (loop_body_alert_needs_check k h f l fr Hfr).
Qed.

Lemma run_alert_needs_check k (p : host * capture_checker_data -> bool) :
  (forall h f, p (h, f) = true -> check_enabled k h f = false) ->
  forall obs l,
    forallb p obs = true ->
    forallb (fun out => negb (fires k out)) (fst (thread_loop_from l obs)) = true.
Proof.
  intros Hp obs. induction obs as [|[h f] obs IH]; intros l Hall.
  - reflexivity.
  - cbn [forallb] in Hall. apply andb_true_iff in Hall as [Ho Hall].
    apply Hp in Ho. cbn [thread_loop_from].
    destruct (loop_iteration h f l) as [| |r] eqn:Hit.
    + reflexivity.
    + cbn [fst forallb fires existsb negb andb]. apply IH, Hall.
    + assert (Hr : fires k (alerts_of r) = false).
      { destruct (fires k (alerts_of r)) eqn:E; [|reflexivity].
        pose proof (loop_iteration_alert_needs_check k h f l r Hit E).
        congruence. }
      destruct r as [l' out|out]; cbn [alerts_of] in Hr;
        cbn [fst forallb]; rewrite Hr; cbn [negb andb].
      * apply IH, Hall.
      * reflexivity.
Qed.

(** X12.  Over a run of the loop, no iteration calls the audio alert while
    it finds the audio check off, and none calls the visibility alert
    while it finds the source visible or the source-enabled check off,
    whatever the timestamps are. *)
Theorem silent_checks l obs :
  (forallb audio_check_off obs = true ->
   forallb (fun out => negb (fires StalledAudio out))
     (fst (thread_loop_from l obs)) = true)
  /\ (forallb visible_or_unchecked obs = true ->
      forallb (fun out => negb (fires HiddenTooLong out))
        (fst (thread_loop_from l obs)) = true).
Proof.
  split; intros Hall.
  - apply (run_alert_needs_check StalledAudio audio_check_off); [|exact Hall].
    intros h f H. unfold audio_check_off in H. cbn [snd] in H.
    apply negb_true_iff in H. exact H.
  - apply (run_alert_needs_check HiddenTooLong visible_or_unchecked);
      [|exact Hall].
    intros h f H. unfold visible_or_unchecked in H. cbn [fst snd] in H.
    unfold check_enabled.
    destruct (source_enabled_check f), (obs_source_active h (source f));
      cbn in *; congruence.
Qed.

Lemma silent_checks_witness :
  forallb visible_or_unchecked
    [(obs_host true true, watched 1 0 0);
     (obs_host true true, watched 1 9000000000 0);
     (obs_host true false, set_source_enabled_check false (watched 1 9000000001 0))]
  = true
  /\ forallb (fun out => negb (fires HiddenTooLong out))
       (fst (thread_loop_from thread_loop_entry
               [(obs_host true true, watched 1 0 0);
                (obs_host true true, watched 1 9000000000 0);
                (obs_host true false,
                 set_source_enabled_check false (watched 1 9000000001 0))]))
     = true.
Proof.
  split; [reflexivity|].
  destruct (silent_checks thread_loop_entry
              [(obs_host true true, watched 1 0 0);
               (obs_host true true, watched 1 9000000000 0);
               (obs_host true false,
                set_source_enabled_check false (watched 1 9000000001 0))])
    as [_ H].
  apply H. reflexivity.
Defined.

(** X13.  A settings update takes effect at the next iteration of the
    running task, which is not restarted: after [filter_update], the
    iteration of task [t] keeps every other task as it is and calls no
    alert of a check that the settings turn off. *)
Theorem update_takes_effect h settings h' t s s' :
  exec [(h, Update settings); (h', Watchdog t)] s = Ok s' ->
  (forall t', t' <> t -> tasks s' !! t' = tasks s !! t')
  /\ next_tid s' = next_tid s
  /\ exists out,
       sink s' = sink s ++ map (pair t) out
       /\ (SETTING_VIDEO_TS_CHECK settings = false ->
           fires StalledVideo out = false)
       /\ (SETTING_AUDIO_TS_CHECK settings = false ->
           fires StalledAudio out = false)
       /\ (SETTING_SOURCE_ENABLED_CHECK settings = false ->
           fires HiddenTooLong out = false).
Proof.
  cbn [exec step rbind]. set (s1 := with_flt (filter_update settings (flt s)) s).
  destruct (watchdog_step h' t s1) as [s2|] eqn:H2; [|discriminate].
  cbn [rbind]. intros [= <-].
  destruct (filter_update_fields settings (flt s)) as (Hv & Ha & Hs & _).
  unfold watchdog_step in H2.
  assert (Hnone : forall k : alert, fires k [] = false) by reflexivity.
  destruct (tasks s1 !! t) as [l|] eqn:Hl.
  2:{ injection H2 as <-. repeat split.
      exists []. cbn [map sink s1 with_flt]. rewrite app_nil_r. auto. }
  destruct (loop_iteration h' (flt s1) l) as [| |[l' out|out]] eqn:Hit;
    try discriminate; injection H2 as <-; cbn [tasks next_tid sink s1 with_flt].
  - split; [|split; [reflexivity|]].
    + intros t' Hne. apply lookup_delete_ne. congruence.
    + exists []. cbn [map]. rewrite app_nil_r. auto.
  - split; [auto|]. split; [reflexivity|].
    exists []. cbn [map]. rewrite app_nil_r. auto.
  - split; [|split; [reflexivity|]].
    + intros t' Hne. apply lookup_insert_ne. congruence.
    + exists out. split; [reflexivity|].
      assert (Hk : forall k, check_enabled k h' (flt s1) = false ->
                             fires k out = false).
      { intros k Hoff. destruct (fires k out) eqn:E; [|reflexivity].
        pose proof (loop_iteration_alert_needs_check k h' (flt s1) l
                      (Done l' out) Hit E). congruence. }
      cbn [flt s1 with_flt] in Hk.
      split; [|split]; intros Hoff; apply Hk; unfold check_enabled.
      * congruence.
      * congruence.
      * rewrite Hs, Hoff. reflexivity.
Qed.

Lemma update_takes_effect_witness :
  exec [(obs_host true true,
         Update {| SETTING_VIDEO_TS_CHECK := false;
                   SETTING_AUDIO_TS_CHECK := true;
                   SETTING_SOURCE_ENABLED_CHECK := true;
                   SETTING_SOURCE_ENABLED_TIME := 5 |});
        (obs_host true true, Watchdog 0%nat)] demo_state
  = Ok {| flt := set_video_ts_check false (watched 5 10 11);
          tasks := {[0%nat := at_top 10 11 true 0]};
          next_tid := 1%nat;
          sink := [(0%nat, StalledVideo); (0%nat, StalledAudio);
                   (0%nat, StalledAudio)] |}
  /\ exists out,
       [(0%nat, StalledVideo); (0%nat, StalledAudio); (0%nat, StalledAudio)]
       = sink demo_state ++ map (pair 0%nat) out
       /\ fires StalledVideo out = false.
Proof.
  assert (Hs : exec [(obs_host true true,
                      Update {| SETTING_VIDEO_TS_CHECK := false;
                                SETTING_AUDIO_TS_CHECK := true;
                                SETTING_SOURCE_ENABLED_CHECK := true;
                                SETTING_SOURCE_ENABLED_TIME := 5 |});
                     (obs_host true true, Watchdog 0%nat)] demo_state
               = Ok {| flt := set_video_ts_check false (watched 5 10 11);
                       tasks := {[0%nat := at_top 10 11 true 0]};
                       next_tid := 1%nat;
                       sink := [(0%nat, StalledVideo); (0%nat, StalledAudio);
                                (0%nat, StalledAudio)] |})
    by (vm_compute; reflexivity).
  split; [exact Hs|].
  destruct (update_takes_effect _ _ _ _ _ _ Hs) as (_ & _ & out & Hout & Hv & _).
  exists out. split; [exact Hout|]. apply Hv. reflexivity.
Defined.

(** ** Edge cases of the checks *)

(** X14.  The caches start at 0 (lines 212-213), so the first evaluated
    iteration of a task calls the video alert exactly when the video check
    is on and the first video timestamp it sees is 0, and the audio alert
    exactly when the audio check is on and the first audio timestamp it
    sees is 0. *)
Theorem first_tick_compares_with_zero h f l' out fr au :
  loop_iteration h f thread_loop_entry = IterRun (Done l' out) ->
  current_frame f = Some fr ->
  current_audio f = Some au ->
  U64.in_range (timestamp fr) ->
  U64.in_range (audio_timestamp au) ->
  fires StalledVideo out = video_ts_check f && (timestamp fr =? 0)
  /\ fires StalledAudio out = audio_ts_check f && (audio_timestamp au =? 0).
Proof.
  intros Hit Hfr Hau Rv Ra.
  destruct (loop_iteration_done_inv _ _ _ _ _ Hit) as (fr' & au' & Ha & _).
  rewrite (loop_iteration_run h f _ fr Ha Hfr) in Hit.
  rewrite (loop_body_done h f _ fr au Hfr Hau) in Hit.
  injection Hit as _ Hout. subst out.
  assert (R0 : U64.in_range 0) by (unfold U64.in_range, U64.modulus; lia).
  rewrite !fires_body. unfold video_stalled, audio_stalled.
  cbn [frame_ts audio_ts thread_loop_entry].
  rewrite !u64_sub_zero by assumption.
  rewrite (Z.eqb_sym 0 (timestamp fr)), (Z.eqb_sym 0 (audio_timestamp au)).
  auto.
Qed.

Lemma first_tick_compares_with_zero_witness :
  loop_iteration (obs_host true true) (watched 5 0 7) thread_loop_entry
  = IterRun (Done (at_top 0 7 true 0) [StalledVideo])
  /\ fires StalledVideo [StalledVideo] = true && (0 =? 0).
Proof.
  split; [reflexivity|].
  destruct (first_tick_compares_with_zero
              (obs_host true true) (watched 5 0 7) (at_top 0 7 true 0)
              [StalledVideo] (frame_at 0) (audio_at 7)) as [H _].
  - reflexivity.
  - reflexivity.
  - reflexivity.
  - unfold U64.in_range, U64.modulus; simpl; lia.
  - unfold U64.in_range, U64.modulus; simpl; lia.
  - exact H.
Defined.

(** X15.  The audio check works on the audio timestamp as the video check
    does on the video timestamp, under its own flag: an evaluated iteration
    calls the audio alert exactly when the audio check is on and the audio
    timestamp equals the cached one, and then caches the audio timestamp it
    saw. *)
Theorem audio_stall_consecutive h f l l' out au :
  loop_iteration h f l = IterRun (Done l' out) ->
  current_audio f = Some au ->
  U64.in_range (audio_ts l) ->
  U64.in_range (audio_timestamp au) ->
  fires StalledAudio out = audio_ts_check f && (audio_timestamp au =? audio_ts l)
  /\ audio_ts l' = audio_timestamp au.
Proof.
  intros Hit Hau Rl Ra.
  destruct (loop_iteration_done_inv _ _ _ _ _ Hit) as (fr & au' & Ha & Hfr & Hau').
  assert (au' = au) by congruence; subst au'.
  rewrite (loop_iteration_run h f l fr Ha Hfr) in Hit.
  rewrite (loop_body_done h f l fr au Hfr Hau) in Hit.
  injection Hit as Hl Hout. subst out l'.
  rewrite fires_body. unfold audio_stalled.
  rewrite u64_sub_zero by assumption.
  rewrite (Z.eqb_sym (audio_ts l)). auto.
Qed.

Lemma audio_stall_consecutive_witness :
  loop_iteration (obs_host true true) (watched 5 8 3) (at_top 7 3 true 0)
  = IterRun (Done (at_top 8 3 true 0) [StalledAudio])
  /\ fires StalledAudio [StalledAudio] = true && (3 =? 3).
Proof.
  split; [reflexivity|].
  destruct (audio_stall_consecutive
              (obs_host true true) (watched 5 8 3) (at_top 7 3 true 0)
              (at_top 8 3 true 0) [StalledAudio] (audio_at 3)) as [H _].
  - reflexivity.
  - reflexivity.
  - unfold U64.in_range, U64.modulus; simpl; lia.
  - unfold U64.in_range, U64.modulus; simpl; lia.
  - exact H.
Defined.

(** X16.  The difference at line 242 is unsigned.  When the source stays
    hidden and the video timestamp falls below [not_visible_since_ts] (the
    stream starts over), the difference wraps to a large value and the
    visibility alert is called at once, however short the source has been
    hidden. *)
Theorem timestamp_regression_fires h f l l' out fr :
  loop_iteration h f l = IterRun (Done l' out) ->
  current_frame f = Some fr ->
  source_enabled_check f = true ->
  obs_source_active h (source f) = false ->
  prev_visible l = false ->
  U16.in_range (source_enabled_time f) ->
  0 <= timestamp fr < not_visible_since_ts l ->
  not_visible_since_ts l < 2 ^ 63 ->
  fires HiddenTooLong out = true.
Proof.
  intros Hit Hfr Hc Hact Hp HS Hts Hn.
  destruct (loop_iteration_done_inv _ _ _ _ _ Hit) as (fr' & au & Ha & _ & Hau).
  rewrite (loop_iteration_run h f l fr Ha Hfr) in Hit.
  rewrite (loop_body_done h f l fr au Hfr Hau) in Hit.
  injection Hit as _ Hout. subst out.
  rewrite fires_body. unfold hidden_too_long, hidden_since, became_hidden.
  rewrite Hc, Hact, Hp. cbn [negb andb].
  rewrite u64_mul_seconds by assumption.
  apply Z.ltb_lt.
  assert (E : U64.sub (timestamp fr) (not_visible_since_ts l)
              = timestamp fr - not_visible_since_ts l + 2 ^ 64).
  { unfold U64.sub, U64.wrap, U64.modulus. symmetry.
    apply Z.mod_unique with (q := -1); lia. }
  rewrite E. unfold U16.in_range, U16.modulus in HS. lia.
Qed.

Lemma timestamp_regression_fires_witness :
  loop_iteration (obs_host true false) (watched 3600 5 6)
    (at_top 1000 1000 false 1000)
  = IterRun (Done (at_top 5 6 false 1000) [HiddenTooLong])
  /\ fires HiddenTooLong [HiddenTooLong] = true.
Proof.
  split; [reflexivity|].
  apply (timestamp_regression_fires
           (obs_host true false) (watched 3600 5 6)
           (at_top 1000 1000 false 1000) (at_top 5 6 false 1000)
           [HiddenTooLong] (frame_at 5)).
  - reflexivity.
  - reflexivity.
  - reflexivity.
  - reflexivity.
  - reflexivity.
  - unfold U16.in_range, U16.modulus; simpl; lia.
  - simpl; lia.
  - simpl; lia.
Defined.

Lemma forallb_map {A B} (p : B -> bool) (g : A -> B) (xs : list A) :
  forallb p (map g xs) = forallb (fun x => p (g x)) xs.
Proof.
  induction xs as [|x xs IH]; cbn; [reflexivity|]. rewrite IH. reflexivity.
Qed.

(** X17.  The visibility alert is not raised once per hiding: while the
    source stays hidden, every tick whose video timestamp is past the
    threshold calls it again. *)
Theorem hidden_too_long_refires t0 S l obs :
  0 <= t0 ->
  U16.in_range S ->
  not_visible_since_ts l = t0 ->
  prev_visible l = false ->
  forallb (stays_hidden t0 S) obs = true ->
  forallb (past_deadline t0 S) obs = true ->
  forallb (fires HiddenTooLong) (fst (thread_loop_from l obs)) = true
  /\ length (fst (thread_loop_from l obs)) = length obs.
Proof.
  intros Ht0 HS Hn Hp Hall Hpast.
  pose proof (hidden_run t0 S Ht0 HS obs l Hn Hp Hall) as Hmap.
  split.
  - rewrite <- (forallb_map id (fires HiddenTooLong)), Hmap, forallb_map.
    exact Hpast.
  - rewrite <- (length_map (fires HiddenTooLong)), Hmap. apply length_map.
Qed.

Lemma hidden_too_long_refires_witness :
  forallb (stays_hidden 1000 5)
    [(obs_host true false, watched 5 5000001001 1);
     (obs_host true false, watched 5 5000001001 2);
     (obs_host true false, watched 5 6000000000 3)] = true
  /\ forallb (fires HiddenTooLong)
       (fst (thread_loop_from hidden_demo_after
               [(obs_host true false, watched 5 5000001001 1);
                (obs_host true false, watched 5 5000001001 2);
                (obs_host true false, watched 5 6000000000 3)])) = true.
Proof.
  split; [reflexivity|].
  apply (hidden_too_long_refires 1000 5 hidden_demo_after
           [(obs_host true false, watched 5 5000001001 1);
            (obs_host true false, watched 5 5000001001 2);
            (obs_host true false, watched 5 6000000000 3)]).
  - lia.
  - unfold U16.in_range, U16.modulus; simpl; lia.
  - reflexivity.
  - reflexivity.
  - reflexivity.
  - reflexivity.
Defined.

(** ** Runs of the loop *)


(** ** A task of the instance runs [thread_loop] *)

Lemma alerts_by_app t xs ys :
  alerts_by t (xs ++ ys) = alerts_by t xs ++ alerts_by t ys.
Proof. unfold alerts_by. apply List.filter_app. Qed.

Lemma alerts_by_same t out : alerts_by t (map (pair t) out) = map (pair t) out.
Proof.
  unfold alerts_by.
  induction out as [|k out IH]; cbn [map List.filter fst]; [reflexivity|].
  rewrite Nat.eqb_refl, IH. reflexivity.
Qed.

Lemma alerts_by_other t t' out :
  t' <> t -> alerts_by t (map (pair t') out) = [].
Proof.
  intros Hne. unfold alerts_by.
  induction out as [|k out IH]; cbn [map List.filter fst]; [reflexivity|].
  destruct (Nat.eqb_spec t' t); [contradiction|]. exact IH.
Qed.

Lemma start_thread_other h s s' (t : tid) :
  start_thread h s = Ok s' ->
  (t < next_tid s)%nat ->
  tasks s' !! t = tasks s !! t /\ sink s' = sink s /\ (t < next_tid s')%nat.
Proof.
  intros H Hlt. destruct (start_thread_effect h s s' H) as [->|[_ ->]]; [auto|].
  cbn [tasks sink next_tid]. split; [|split; [reflexivity|lia]].
  apply lookup_insert_ne. lia.
Qed.

Lemma filter_video_other h frame s r (t : tid) :
  filter_video h frame s = Ok r ->
  (t < next_tid s)%nat ->
  tasks (snd r) !! t = tasks s !! t
  /\ sink (snd r) = sink s
  /\ (t < next_tid (snd r))%nat.
Proof.
  unfold filter_video.
  destruct (filter_video_start h s) as [s1|] eqn:H1; [|discriminate].
  cbn [rbind].
  destruct (filter_video_stores frame (flt s1)) as [b|]; [|discriminate].
  cbn [rbind]. intros [= <-] Hlt. cbn [snd].
  assert (Hs1 : tasks s1 !! t = tasks s !! t /\ sink s1 = sink s
                /\ (t < next_tid s1)%nat).
  { unfold filter_video_start in H1.
    match type of H1 with
    | (if ?c then _ else _) = _ => destruct c
    end.
    - apply (start_thread_other h _ s1 t) in H1; [exact H1 | exact Hlt].
    - injection H1 as <-. auto. }
  destruct b; exact Hs1.
Qed.

Lemma end_thread_cases h s s' :
  end_thread h s = Ok s' ->
  sink s' = sink s
  /\ next_tid s' = next_tid s
  /\ ((thread_active (flt s) = false /\ s' = s)
      \/ (thread_active (flt s) = true
          /\ exists t0,
               thread (flt s) = Some t0 /\ tasks s' = delete t0 (tasks s))).
Proof.
  unfold end_thread.
  destruct (thread_active (flt s)); cbn [negb].
  2:{ intros [= <-]. auto. }
  unfold join. cbn [flt with_flt thread set_thread_active tasks].
  destruct (thread (flt s)) as [t|]; [|discriminate].
  destruct (tasks s !! t) as [l|] eqn:Hl.
  - destruct (loop_iteration h (set_thread_active false (flt s)) l);
      try discriminate.
    cbn. intros [= <-]. cbn. repeat split. right. eauto.
  - cbn. intros [= <-]. cbn. repeat split. right. split; [reflexivity|].
    exists t. split; [reflexivity|]. symmetry. apply delete_id, Hl.
Qed.

Lemma watchdog_other h (t' : tid) s s' (t : tid) :
  watchdog_step h t' s = Ok s' ->
  t' <> t ->
  tasks s' !! t = tasks s !! t
  /\ alerts_by t (sink s') = alerts_by t (sink s)
  /\ next_tid s' = next_tid s.
Proof.
  unfold watchdog_step. intros H Hne. destruct (tasks s !! t') as [l|].
  2:{ injection H as <-. auto. }
  destruct (loop_iteration h (flt s) l) as [| |[l' out|out]];
    try discriminate; injection H as <-; cbn [tasks sink next_tid].
  - split; [|auto]. apply lookup_delete_ne, Hne.
  - auto.
  - split; [apply lookup_insert_ne, Hne|]. split; [|reflexivity].
    rewrite alerts_by_app, (alerts_by_other t t' out Hne). apply app_nil_r.
Qed.

(** A task that has returned stays so and calls nothing more. *)
Lemma exec_absent (t : tid) evs :
  forall s s',
    tasks s !! t = None ->
    (t < next_tid s)%nat ->
    exec evs s = Ok s' ->
    tasks s' !! t = None /\ alerts_by t (sink s') = alerts_by t (sink s).
Proof.
  induction evs as [|[h e] evs IH]; intros s s' Hno Hlt; cbn [exec].
  - intros [= <-]. auto.
  - destruct (step h e s) as [s1|] eqn:H1; [|discriminate].
    cbn [rbind]. intros H.
    assert (Hs1 : tasks s1 !! t = None /\ (t < next_tid s1)%nat
                  /\ alerts_by t (sink s1) = alerts_by t (sink s)).
    { destruct e as [settings|enabled|frame|audio|t']; cbn [step] in H1.
      - injection H1 as <-. auto.
      - unfold filter_enabled in H1. destruct enabled.
        + destruct (start_thread_other h s s1 t H1 Hlt) as (Ht & Hk & Hn).
          rewrite Ht, Hk. auto.
        + destruct (end_thread_cases h s s1 H1)
            as (Hk & Hn & [[_ ->]|(_ & t0 & _ & Htk)]); [auto|].
          rewrite Htk, Hk, Hn. split; [|auto].
          apply lookup_delete_None. auto.
      - destruct (filter_video h frame s) as [r|] eqn:Hv; [|discriminate].
        cbn [rbind] in H1. injection H1 as <-.
        destruct (filter_video_other h frame s r t Hv Hlt) as (Ht & Hk & Hn).
        rewrite Ht, Hk. auto.
      - injection H1 as <-. auto.
      - destruct (Nat.eq_dec t' t) as [->|Hne].
        + unfold watchdog_step in H1. rewrite Hno in H1.
          injection H1 as <-. auto.
        + destruct (watchdog_other h t' s s1 t H1 Hne) as (Ht & Hk & Hn).
          rewrite Ht, Hk, Hn. auto. }
    destruct Hs1 as (Hno1 & Hlt1 & Hk1).
    destruct (IH s1 s' Hno1 Hlt1 H) as [Hr1 Hr2].
    split; [exact Hr1 | congruence].
Qed.

(** X19.  What a task does inside the instance is a run of [thread_loop]:
    along any sequence of callbacks and iterations that runs to its end,
    the alert calls task [t] adds are those of [thread_loop] run from the
    task's locals over the snapshots its iterations saw, and the task is
    left where that run stands: still in the loop with the same locals, or
    returned. *)
Theorem task_runs_thread_loop (t : tid) evs :
  forall s s' l,
    tasks s !! t = Some l ->
    (t < next_tid s)%nat ->
    exec evs s = Ok s' ->
    alerts_by t (sink s')
    = alerts_by t (sink s)
      ++ map (pair t) (concat (fst (thread_loop_from l (observed t evs s))))
    /\ match snd (thread_loop_from l (observed t evs s)) with
       | Running l' => tasks s' !! t = Some l'
       | Exited => tasks s' !! t = None
       | Crashed => False
       end.
Proof.
  induction evs as [|[h e] evs IH]; intros s s' l Hl Hlt; cbn [exec].
  - intros [= <-]. cbn. rewrite app_nil_r. auto.
  - destruct (step h e s) as [s1|] eqn:H1; [|discriminate].
    cbn [rbind]. intros H. cbn [observed]. rewrite H1.
    (* the events that neither run nor join task [t] *)
    assert (Hskip :
      tasks s1 !! t = Some l -> (t < next_tid s1)%nat ->
      alerts_by t (sink s1) = alerts_by t (sink s) ->
      alerts_by t (sink s')
      = alerts_by t (sink s)
        ++ map (pair t) (concat (fst (thread_loop_from l (observed t evs s1))))
      /\ match snd (thread_loop_from l (observed t evs s1)) with
         | Running l' => tasks s' !! t = Some l'
         | Exited => tasks s' !! t = None
         | Crashed => False
         end).
    { intros Hl1 Hlt1 Hk1. rewrite <- Hk1. exact (IH s1 s' l Hl1 Hlt1 H). }
    (* the task leaves the loop at this event *)
    assert (Hleft :
      tasks s1 !! t = None -> (t < next_tid s1)%nat ->
      alerts_by t (sink s1) = alerts_by t (sink s) ->
      alerts_by t (sink s') = alerts_by t (sink s) ++ map (pair t) (concat [])
      /\ tasks s' !! t = None).
    { intros Hno1 Hlt1 Hk1.
      destruct (exec_absent t evs s1 s' Hno1 Hlt1 H) as [Hr1 Hr2].
      cbn. rewrite app_nil_r. split; [congruence | exact Hr1]. }
    destruct e as [settings|enabled|frame|audio|t']; cbn [step] in H1.
    + injection H1 as <-. cbn [app]. apply Hskip; auto.
    + unfold filter_enabled in H1. destruct enabled.
      * cbn [app].
        destruct (start_thread_other h s s1 t H1 Hlt) as (Ht & Hk & Hn).
        apply Hskip; [congruence | exact Hn | congruence].
      * destruct (end_thread_cases h s s1 H1)
          as (Hk & Hn & [[Ha ->]|(Ha & t0 & Ht0 & Htk)]).
        -- rewrite Ha. cbn [andb].
           destruct (thread (flt s)); cbn [app]; apply Hskip; auto.
        -- rewrite Ht0, Ha. cbn [andb].
           destruct (Nat.eqb_spec t0 t) as [->|Hne].
           ++ cbn [app thread_loop_from]. unfold loop_iteration.
              cbn [thread_active set_thread_active negb fst snd].
              apply Hleft; [|lia|congruence].
              rewrite Htk. apply lookup_delete_eq.
           ++ cbn [app]. apply Hskip; [|lia|congruence].
              rewrite Htk, lookup_delete_ne by exact Hne. exact Hl.
    + destruct (filter_video h frame s) as [r|] eqn:Hv; [|discriminate].
      cbn [rbind] in H1. injection H1 as <-. cbn [app].
      destruct (filter_video_other h frame s r t Hv Hlt) as (Ht & Hk & Hn).
      apply Hskip; [congruence | exact Hn | congruence].
    + injection H1 as <-. cbn [app]. apply Hskip; auto.
    + destruct (Nat.eqb_spec t' t) as [->|Hne].
      * cbn [app thread_loop_from].
        unfold watchdog_step in H1. rewrite Hl in H1.
        destruct (loop_iteration h (flt s) l) as [| |[l' out|out]];
          try discriminate; injection H1 as <-; cbn [fst snd].
        -- apply Hleft; cbn [tasks sink next_tid]; auto.
           apply lookup_delete_eq.
        -- cbn [concat app]. exact (IH s s' l Hl Hlt H).
        -- match type of H with
           | exec evs ?s1 = _ =>
               assert (Hl1 : tasks s1 !! t = Some l')
                 by (cbn [tasks]; apply lookup_insert_eq);
               destruct (IH s1 s' l' Hl1 Hlt H) as [Hr1 Hr2]
           end.
           split; [|exact Hr2].
           rewrite Hr1. cbn [sink concat].
           rewrite alerts_by_app, alerts_by_same, map_app, app_assoc.
           reflexivity.
      * cbn [app].
        destruct (watchdog_other h t' s s1 t H1 Hne) as (Ht & Hk & Hn).
        apply Hskip; [congruence | lia | exact Hk].
Qed.

Lemma task_runs_thread_loop_witness :
  exec demo_session (filter_create filter_defaults 0%nat)
  = Ok {| flt := set_thread None
                   (set_thread_active false
                      (set_current_frame None (watched 5 10 11)));
          tasks := ∅; next_tid := 1%nat;
          sink := [(0%nat, StalledVideo); (0%nat, StalledAudio)] |}
  /\ alerts_by 0%nat [(0%nat, StalledVideo); (0%nat, StalledAudio)]
     = [] ++ map (pair 0%nat)
               (concat (fst (thread_loop_from thread_loop_entry
                               (observed 0%nat (tl demo_session)
                                  {| flt := set_thread (Some 0%nat)
                                              (set_thread_active true
                                                 (flt (filter_create
                                                         filter_defaults 0%nat)));
                                     tasks := {[0%nat := thread_loop_entry]};
                                     next_tid := 1%nat; sink := [] |})))).
Proof.
  split; [vm_compute; reflexivity|].
  apply (task_runs_thread_loop 0%nat (tl demo_session)
           {| flt := set_thread (Some 0%nat)
                       (set_thread_active true
                          (flt (filter_create filter_defaults 0%nat)));
              tasks := {[0%nat := thread_loop_entry]};
              next_tid := 1%nat; sink := [] |}
           {| flt := set_thread None
                       (set_thread_active false
                          (set_current_frame None (watched 5 10 11)));
              tasks := ∅; next_tid := 1%nat;
              sink := [(0%nat, StalledVideo); (0%nat, StalledAudio)] |}
           thread_loop_entry).
  - apply lookup_singleton_eq.
  - cbn. lia.
  - vm_compute. reflexivity.
Defined.

(** ** The start from [filter_video] and the reads of the watchdog *)

(** X20.  On an instance reached from its creation with no watchdog
    running, a delivered frame starts the watchdog exactly when the filter
    is enabled and the source held after the parent lookup is active; it
    then starts one task, at the entry of [thread_loop].  Otherwise there
    is still no task.  In both cases the source held afterwards is the one
    the lookup gave. *)
Theorem filter_video_starts_watchdog settings ctx evs s h frame r :
  exec evs (filter_create settings ctx) = Ok s ->
  thread_active (flt s) = false ->
  filter_video h frame s = Ok r ->
  source (flt (snd r)) = source_after_lookup h (flt s)
  /\ if obs_source_enabled h (context (flt s))
        && obs_source_active h (source_after_lookup h (flt s))
     then thread_active (flt (snd r)) = true
          /\ tasks (snd r) = {[next_tid s := thread_loop_entry]}
     else thread_active (flt (snd r)) = false /\ tasks (snd r) = ∅.
Proof.
  intros Hrun Hact.
  pose proof (exec_inv evs _ s (filter_create_inv settings ctx) Hrun) as Hinv.
  unfold lifecycle_inv in Hinv. rewrite Hact in Hinv. destruct Hinv as [Hth Htk].
  unfold filter_video.
  destruct (filter_video_start h s) as [s1|] eqn:H1; [|discriminate].
  cbn [rbind].
  destruct (filter_video_stores frame (flt s1)) as [b|]; [|discriminate].
  cbn [rbind]. intros [= <-]. cbn [snd].
  assert (Hs1 :
    source (flt s1) = source_after_lookup h (flt s)
    /\ if obs_source_enabled h (context (flt s))
          && obs_source_active h (source_after_lookup h (flt s))
       then thread_active (flt s1) = true
            /\ tasks s1 = {[next_tid s := thread_loop_entry]}
       else thread_active (flt s1) = false /\ tasks s1 = ∅).
  { unfold filter_video_start in H1. unfold source_after_lookup.
    set (g := match source (flt s) with
              | Some _ => flt s
              | None =>
                  set_source (obs_filter_get_parent h (context (flt s))) (flt s)
              end) in H1.
    assert (Hg : thread_active g = false /\ context g = context (flt s)
                 /\ thread g = None
                 /\ source g = match source (flt s) with
                               | Some p => Some p
                               | None => obs_filter_get_parent h (context (flt s))
                               end).
    { subst g. destruct (source (flt s)) eqn:Hsrc; cbn; auto. }
    destruct Hg as (Hga & Hgc & Hgt & Hgs).
    rewrite Hga, Hgc, Hgs in H1. cbn [negb andb] in H1.
    destruct (obs_source_enabled h (context (flt s))
              && obs_source_active h
                   match source (flt s) with
                   | Some p => Some p
                   | None => obs_filter_get_parent h (context (flt s))
                   end) eqn:Hc.
    - apply andb_true_iff in Hc as [Hen _].
      unfold start_thread in H1. cbn [flt with_flt] in H1.
      rewrite Hga, Hgc, Hen in H1.
      cbn [orb negb thread set_thread_active] in H1. rewrite Hgt in H1.
      injection H1 as <-. cbn. rewrite Htk, insert_empty. auto.
    - injection H1 as <-. cbn [flt with_flt tasks]. auto. }
  destruct b; exact Hs1.
Qed.

Lemma filter_video_starts_watchdog_witness :
  exec [] (filter_create filter_defaults 0%nat)
  = Ok (filter_create filter_defaults 0%nat)
  /\ filter_video (obs_host true true) (Some (frame_at 3))
       (filter_create filter_defaults 0%nat)
     = Ok (Some (frame_at 3),
           {| flt := set_current_frame (Some (frame_at 3))
                       (set_thread (Some 0%nat)
                          (set_thread_active true
                             (set_source (Some 1%nat)
                                (flt (filter_create filter_defaults 0%nat)))));
              tasks := {[0%nat := thread_loop_entry]};
              next_tid := 1%nat; sink := [] |})
  /\ source
       (set_current_frame (Some (frame_at 3))
          (set_thread (Some 0%nat)
             (set_thread_active true
                (set_source (Some 1%nat)
                   (flt (filter_create filter_defaults 0%nat))))))
     = Some 1%nat.
Proof.
  split; [reflexivity|]. split; [vm_compute; reflexivity|].
  destruct (filter_video_starts_watchdog filter_defaults 0%nat []
              (filter_create filter_defaults 0%nat) (obs_host true true)
              (Some (frame_at 3))
              (Some (frame_at 3),
               {| flt := set_current_frame (Some (frame_at 3))
                           (set_thread (Some 0%nat)
                              (set_thread_active true
                                 (set_source (Some 1%nat)
                                    (flt (filter_create filter_defaults 0%nat)))));
                  tasks := {[0%nat := thread_loop_entry]};
                  next_tid := 1%nat; sink := [] |}))
    as [H _].
  - reflexivity.
  - reflexivity.
  - vm_compute. reflexivity.
  - exact H.
Defined.

(** X21.  The watchdog only reads the instance: a sequence of watchdog
    iterations, by whatever tasks, leaves every member of the instance as
    it was and starts no task. *)
Theorem watchdog_only_reads evs :
  forall s s',
    forallb (fun o => negb (is_callback o)) evs = true ->
    exec evs s = Ok s' ->
    flt s' = flt s /\ next_tid s' = next_tid s.
Proof.
  induction evs as [|[h e] evs IH]; intros s s' Hall; cbn [exec].
  - intros [= <-]. auto.
  - cbn [forallb] in Hall. apply andb_true_iff in Hall as [He Hall].
    destruct e as [settings|enabled|frame|audio|t]; try discriminate.
    cbn [step]. destruct (watchdog_step h t s) as [s1|] eqn:H1; [|discriminate].
    cbn [rbind]. intros H.
    destruct (IH s1 s' Hall H) as [Hf Hn].
    pose proof (watchdog_step_keeps_flt h t s s1 H1) as Hf1.
    destruct (watchdog_other h t s s1 (S t) H1) as (_ & _ & Hn1); [lia|].
    split; congruence.
Qed.

Lemma watchdog_only_reads_witness :
  flt {| flt := watched 5 10 11;
         tasks := {[0%nat := at_top 10 11 true 0]};
         next_tid := 1%nat;
         sink := [(0%nat, StalledVideo); (0%nat, StalledAudio)] |}
  = flt {| flt := watched 5 10 11; tasks := {[0%nat := thread_loop_entry]};
           next_tid := 1%nat; sink := [] |}.
Proof.
  apply (watchdog_only_reads
           [(obs_host true true, Watchdog 0%nat);
            (obs_host true true, Watchdog 0%nat)]).
  - reflexivity.
  - vm_compute. reflexivity.
Defined.
